(** * graphql.utilities.ast_from_value

    A shallow embedding of [ast_from_value] (src/graphql/utilities/
    ast_from_value.py) and the properties its specification states.

    The function turns a Python value into a GraphQL value AST, guided by a
    GraphQL input type.  Python values, GraphQL types and AST nodes become
    inductive types; a raised [TypeError] becomes the [Raise] constructor of
    a small error monad; [None] as a return value becomes [Absent]. *)

From Stdlib Require Import ZArith List String Ascii Bool Lia Arith.
From Stdlib Require Import DecimalString SpecFloat.
From Stdlib Require DecimalPos DecimalZ.
Import ListNotations.

Set Warnings "-register-all".

Local Open Scope string_scope.
Local Open Scope Z_scope.

(** ** Python values *)

(** A Python [float] is an IEEE 754 binary64 number; [spec_float] is the
    Standard Library's description of these (sign, mantissa, exponent, with
    zeros, infinities and NaN). *)
Definition pyfloat := spec_float.

Definition binary64 (f : pyfloat) : bool := valid_binary 53 1024 f.

(** The runtime values [ast_from_value] tells apart.  [PyInvalid] is the
    [INVALID] sentinel of [graphql.pyutils]; [PyList] stands for every
    iterable that is neither a [str] nor a mapping (list, tuple, ...);
    [PyDict] is a mapping with [str] keys, kept in insertion order;
    [PyObject] is any other object (an enum member, say), identified by a
    tag. *)
Inductive pyvalue : Type :=
| PyNone
| PyInvalid
| PyBool (b : bool)
| PyInt (n : Z)
| PyFloat (f : pyfloat)
| PyStr (s : string)
| PyList (items : list pyvalue)
| PyDict (entries : list (string * pyvalue))
| PyObject (tag : nat).

(** ** GraphQL input types *)

(** Which object a scalar type is.  Line 122 tests whether the type is the
    object [GraphQLID], the built-in identifier scalar of [graphql.type];
    every other scalar type is another object, whatever its name is, the
    name ["ID"] included. *)
Inductive scalar_object : Type :=
| BuiltinID
| NamedScalar (name : string).

(** [serialize] of a scalar or enum type is code of the type system, not of
    this module: it is carried by the type as a function, under the contract
    the specification gives it (it returns an external value or a nullish
    marker).  [GraphQLOther] stands for every type that none of the [is_*]
    predicates used below recognises (an object, interface or union type). *)
Inductive gtype : Type :=
| GraphQLNonNull (of_type : gtype)
| GraphQLList (of_type : gtype)
| GraphQLInputObjectType (fields : list (string * gtype))
| GraphQLScalarType (object : scalar_object) (serialize : pyvalue -> pyvalue)
| GraphQLEnumType (name : string) (serialize : pyvalue -> pyvalue)
| GraphQLOther (name : string).

Definition is_non_null_type (t : gtype) : bool :=
  match t with GraphQLNonNull _ => true | _ => false end.

Definition is_list_type (t : gtype) : bool :=
  match t with GraphQLList _ => true | _ => false end.

Definition is_input_object_type (t : gtype) : bool :=
  match t with GraphQLInputObjectType _ => true | _ => false end.

Definition is_scalar_type (t : gtype) : bool :=
  match t with GraphQLScalarType _ _ => true | _ => false end.

Definition is_enum_type (t : gtype) : bool :=
  match t with GraphQLEnumType _ _ => true | _ => false end.

Definition is_leaf_type (t : gtype) : bool :=
  is_scalar_type t || is_enum_type t.

(** The built-in object [GraphQLID].  Its [serialize] is code of
    [graphql.type], carried as a parameter like that of every leaf type. *)
Definition GraphQLID (serialize : pyvalue -> pyvalue) : gtype :=
  GraphQLScalarType BuiltinID serialize.

(** [type_ is GraphQLID]: the type is that very object, not merely a scalar
    type of the same name. *)
Definition is_GraphQLID (t : gtype) : bool :=
  match t with
  | GraphQLScalarType BuiltinID _ => true
  | _ => false
  end.

(** ** Value nodes of the AST *)

(** [ListValueNode] holds whatever the list comprehension produced, [None]
    included; an [ObjectFieldNode] is the pair of its name and its value. *)
Inductive node : Type :=
| NullValueNode
| BooleanValueNode (value : bool)
| IntValueNode (value : string)
| FloatValueNode (value : string)
| StringValueNode (value : string)
| EnumValueNode (value : string)
| ListValueNode (values : list (option node))
| ObjectValueNode (fields : list (string * node)).

(** What a call returns: a node, or [None]. *)
Definition Absent : option node := None.

(** ** Exceptions *)

(** The two [TypeError]s of the module, with the value their message
    interpolates. *)
Inductive type_error : Type :=
| CannotConvert (serialized : pyvalue)
| UnknownType (type_ : gtype).

(** A call returns [a] or raises [e]. *)
Inductive result (E A : Type) : Type :=
| Ok (a : A)
| Raise (e : E).

Arguments Ok {E A} a.
Arguments Raise {E A} e.

Definition bind {E A B : Type} (r : result E A) (k : A -> result E B)
  : result E B :=
  match r with
  | Ok a => k a
  | Raise e => Raise e
  end.

Notation "x <- r ;; k" := (bind r (fun x => k))
  (at level 61, r at next level, right associativity).

(** A list comprehension whose body may raise: elements are evaluated from
    left to right and the first exception ends the evaluation. *)
Fixpoint comprehension {E A B : Type} (f : A -> result E B) (l : list A)
  : result E (list B) :=
  match l with
  | [] => Ok []
  | a :: l' => b <- f a ;; bs <- comprehension f l' ;; Ok (b :: bs)
  end.

(** ** Helpers of [graphql.pyutils] *)

Definition is_None (v : pyvalue) : bool :=
  match v with PyNone => true | _ => false end.

Definition is_nan (f : pyfloat) : bool :=
  match f with S754_nan => true | _ => false end.

(** Modelled from the spec: [is_invalid] of [graphql.pyutils], which is not
    part of this module; it holds of the Invalid/Missing/NaN sentinel, that
    is of [INVALID] and of a float that is not equal to itself. *)
Definition is_invalid (v : pyvalue) : bool :=
  match v with
  | PyInvalid => true
  | PyFloat f => is_nan f
  | _ => false
  end.

(** Modelled from the spec: [is_nullish] of [graphql.pyutils], the nullish
    marker of a serialization result: [None], [INVALID] or NaN. *)
Definition is_nullish (v : pyvalue) : bool :=
  is_None v || is_invalid v.

(** ** Python built-ins used by the conversion *)

(** [isinstance(value, str)] *)
Definition is_str (v : pyvalue) : bool :=
  match v with PyStr _ => true | _ => false end.

(** [isinstance(value, Iterable)]: strings, lists and mappings. *)
Definition is_iterable (v : pyvalue) : bool :=
  match v with
  | PyStr _ | PyList _ | PyDict _ => true
  | _ => false
  end.

Fixpoint characters (s : string) : list pyvalue :=
  match s with
  | EmptyString => []
  | String c s' => PyStr (String c EmptyString) :: characters s'
  end.

(** [for item in value]: a list yields its items, a mapping its keys, a
    string its characters. *)
Definition iter (v : pyvalue) : list pyvalue :=
  match v with
  | PyList items => items
  | PyDict entries => map (fun kv => PyStr (fst kv)) entries
  | PyStr s => characters s
  | _ => []
  end.

(** [isinstance(value, Mapping)] *)
Definition is_mapping (v : pyvalue) : bool :=
  match v with PyDict _ => true | _ => false end.

Fixpoint lookup (key : string) (entries : list (string * pyvalue))
  : option pyvalue :=
  match entries with
  | [] => None
  | (k, v) :: rest => if String.eqb key k then Some v else lookup key rest
  end.

(** [value[key]] guarded by [key in value]: [None] when the key is not in
    the mapping. *)
Definition getitem (v : pyvalue) (key : string) : option pyvalue :=
  match v with
  | PyDict entries => lookup key entries
  | _ => None
  end.

(** ** Text of numbers *)

(** [f"{n:d}"]: decimal digits, a minus sign for a negative number. *)
Definition format_d (n : Z) : string :=
  NilZero.string_of_int (Z.to_int n).

Definition decimal_digits (n : Z) : string :=
  NilZero.string_of_uint (N.to_uint (Z.to_N n)).

Fixpoint zeros (n : nat) : string :=
  match n with
  | O => EmptyString
  | S n' => String "0" (zeros n')
  end.

(** Drops the zeros at the end of a digit string. *)
Fixpoint strip_zeros (s : string) : string :=
  match s with
  | EmptyString => EmptyString
  | String c s' =>
      match strip_zeros s' with
      | EmptyString =>
          if Ascii.eqb c "0" then EmptyString else String c EmptyString
      | t => String c t
      end
  end.

Definition len (s : string) : Z := Z.of_nat (String.length s).

(** The value [m * 2^e] of a finite float written as [n * 10^(-k)]: every
    binary fraction is a decimal fraction. *)
Definition exact_decimal (m : positive) (e : Z) : Z * Z :=
  match e with
  | Z0 => (Zpos m, 0)
  | Zpos p => (Zpos m * 2 ^ Zpos p, 0)
  | Zneg p => (Zpos m * 5 ^ Zpos p, Zpos p)
  end.

(** Rounds the integer [n] to at most [precision] significant digits, to
    nearest with ties to even: the result [(q, d)] stands for [q * 10^d]. *)
Definition round_significant (precision n : Z) : Z * Z :=
  let d := len (decimal_digits n) - precision in
  if d <=? 0 then (n, 0)
  else
    let unit := 10 ^ d in
    let q := n / unit in
    let r := n mod unit in
    if (unit <? 2 * r) || ((unit =? 2 * r) && Z.odd q)
    then (q + 1, d) else (q, d).

(** ["%+.02d"]: a sign and at least two digits. *)
Definition format_exponent (x : Z) : string :=
  let digits := decimal_digits (Z.abs x) in
  (if x <? 0 then "-" else "+") ++
  (if len digits <? 2 then "0" else "") ++ digits.

(** Lays out the significant [digits] of a number [0.digits * 10^decpt] the
    way the [g] presentation type does for the given [precision]: scientific
    notation when [decpt <= -4] or [decpt > precision], positional notation
    otherwise, and no decimal point without digits after it. *)
Definition layout_g (precision : Z) (digits : string) (decpt : Z) : string :=
  if (decpt <=? -4) || (precision <? decpt) then
    match digits with
    | String c EmptyString => String c EmptyString
    | String c rest => String c ("." ++ rest)
    | EmptyString => EmptyString
    end ++ "e" ++ format_exponent (decpt - 1)
  else if decpt <=? 0 then
    "0." ++ zeros (Z.to_nat (- decpt)) ++ digits
  else if decpt <? len digits then
    substring 0 (Z.to_nat decpt) digits ++ "." ++
    substring (Z.to_nat decpt) (String.length digits - Z.to_nat decpt) digits
  else
    digits ++ zeros (Z.to_nat (decpt - len digits)).

Definition format_sign (s : bool) : string := if s then "-" else "".

(** [f"{x:g}"]: the general format with its default precision of six
    significant digits. *)
Definition format_g (x : pyfloat) : string :=
  match x with
  | S754_nan => "nan"
  | S754_infinity s => format_sign s ++ "inf"
  | S754_zero s => format_sign s ++ "0"
  | S754_finite s m e =>
      let (n, k) := exact_decimal m e in
      let (q, d) := round_significant 6 n in
      let digits := decimal_digits q in
      format_sign s ++ layout_g 6 (strip_zeros digits) (len digits + d - k)
  end.

(** ** The integer pattern *)

(** [_re_integer_string] is the pattern of integer literals: an optional
    minus sign, then either a single [0] or a digit of [1-9] followed by any
    number of digits of [0-9], up to the end [$].  In Python [$] matches at
    the end of the string and also just before a newline that ends the
    string. *)

(** A digit of [0-9]. *)
Definition is_digit (c : ascii) : bool :=
  (48 <=? nat_of_ascii c)%nat && (nat_of_ascii c <=? 57)%nat.

(** A digit of [1-9]. *)
Definition is_nonzero_digit (c : ascii) : bool :=
  (49 <=? nat_of_ascii c)%nat && (nat_of_ascii c <=? 57)%nat.

(** The end [$]: nothing, or one newline. *)
Definition at_end (s : string) : bool :=
  match s with
  | EmptyString => true
  | String c EmptyString => Ascii.eqb c "010"
  | _ => false
  end.

(** Any number of digits, up to the end. *)
Fixpoint digits_then_end (s : string) : bool :=
  at_end s ||
  match s with
  | String c s' => is_digit c && digits_then_end s'
  | EmptyString => false
  end.

(** A single [0], or a digit of [1-9] and any number of digits, up to the
    end. *)
Definition natural_then_end (s : string) : bool :=
  match s with
  | String c s' =>
      if Ascii.eqb c "0" then at_end s'
      else is_nonzero_digit c && digits_then_end s'
  | EmptyString => false
  end.

(** [_re_integer_string.match(s)] *)
Definition re_integer_string_match (s : string) : bool :=
  match s with
  | String c s' =>
      if Ascii.eqb c "-" then natural_then_end s' else natural_then_end s
  | EmptyString => false
  end.

(** ** The conversion *)

(** Lines 103-127: the node of a serialized leaf value. *)
Definition ast_from_serialized (type_ : gtype) (serialized : pyvalue)
  : result type_error (option node) :=
  if is_nullish serialized then Ok None
  else
    match serialized with
    | PyBool b => Ok (Some (BooleanValueNode b))
    | PyInt n => Ok (Some (IntValueNode (format_d n)))
    | PyFloat f => Ok (Some (FloatValueNode (format_g f)))
    | PyStr s =>
        if is_enum_type type_ then Ok (Some (EnumValueNode s))
        else if is_GraphQLID type_ && re_integer_string_match s
        then Ok (Some (IntValueNode s))
        else Ok (Some (StringValueNode s))
    | _ => Raise (CannotConvert serialized)
    end.

(** Lines 86-97: the loop over [type_.fields.items()], for a conversion
    [convert] of the field values.  [field_name in value] and
    [value[field_name]] are the one [getitem]; a node is true as a condition
    (the node classes define no truth value of their own), so
    [if field_value] tells a node from [None]. *)
Definition object_fields {E : Type}
  (convert : pyvalue -> gtype -> result E (option node)) (value : pyvalue)
  : list (string * gtype) -> result E (list (string * node)) :=
  fix loop (fields : list (string * gtype)) :=
    match fields with
    | [] => Ok []
    | (field_name, field_type) :: rest =>
        match getitem value field_name with
        | Some item =>
            field_value <- convert item field_type ;;
            field_nodes <- loop rest ;;
            match field_value with
            | Some n => Ok ((field_name, n) :: field_nodes)
            | None => Ok field_nodes
            end
        | None => loop rest
        end
    end.

Fixpoint ast_from_value (value : pyvalue) (type_ : gtype) {struct type_}
  : result type_error (option node) :=
  match type_ with
  | GraphQLNonNull of_type =>
      ast_value <- ast_from_value value of_type ;;
      match ast_value with
      | Some NullValueNode => Ok None
      | _ => Ok ast_value
      end
  | _ =>
      if is_None value then Ok (Some NullValueNode)
      else if is_invalid value then Ok None
      else
        match type_ with
        | GraphQLList item_type =>
            if is_iterable value && negb (is_str value) then
              value_nodes <-
                comprehension (fun item => ast_from_value item item_type)
                  (iter value) ;;
              Ok (Some (ListValueNode value_nodes))
            else ast_from_value value item_type
        | GraphQLInputObjectType fields =>
            if is_None value || negb (is_mapping value) then Ok None
            else
              field_nodes <-
                object_fields (fun item field_type =>
                                 ast_from_value item field_type) value fields ;;
              Ok (Some (ObjectValueNode field_nodes))
        | GraphQLScalarType _ serialize | GraphQLEnumType _ serialize =>
            ast_from_serialized type_ (serialize value)
        | _ => Raise (UnknownType type_)
        end
  end.

(** ** The conversion as Python runs it *)

(** Python does not know that the recursion is on the type: it runs the
    function with a call stack of some depth.  [ast_from_value_within depth]
    is the same code with at most [depth] nested calls; a call beyond that
    raises [RecursionLimit]. *)
Inductive fault : Type :=
| TypeError (e : type_error)
| RecursionLimit.

Definition propagate {A : Type} (r : result type_error A) : result fault A :=
  match r with
  | Ok a => Ok a
  | Raise e => Raise (TypeError e)
  end.

Fixpoint ast_from_value_within (depth : nat) (value : pyvalue) (type_ : gtype)
  {struct depth} : result fault (option node) :=
  match depth with
  | O => Raise RecursionLimit
  | S depth' =>
      match type_ with
      | GraphQLNonNull of_type =>
          ast_value <- ast_from_value_within depth' value of_type ;;
          match ast_value with
          | Some NullValueNode => Ok None
          | _ => Ok ast_value
          end
      | _ =>
          if is_None value then Ok (Some NullValueNode)
          else if is_invalid value then Ok None
          else
            match type_ with
            | GraphQLList item_type =>
                if is_iterable value && negb (is_str value) then
                  value_nodes <-
                    comprehension
                      (fun item => ast_from_value_within depth' item item_type)
                      (iter value) ;;
                  Ok (Some (ListValueNode value_nodes))
                else ast_from_value_within depth' value item_type
            | GraphQLInputObjectType fields =>
                if is_None value || negb (is_mapping value) then Ok None
                else
                  field_nodes <-
                    object_fields (ast_from_value_within depth') value fields ;;
                  Ok (Some (ObjectValueNode field_nodes))
            | GraphQLScalarType _ serialize | GraphQLEnumType _ serialize =>
                propagate (ast_from_serialized type_ (serialize value))
            | _ => Raise (TypeError (UnknownType type_))
            end
      end
  end.

(** The nesting depth of a type: the number of wrappers and input objects
    above its deepest leaf. *)
Fixpoint type_depth (type_ : gtype) : nat :=
  match type_ with
  | GraphQLNonNull of_type => S (type_depth of_type)
  | GraphQLList of_type => S (type_depth of_type)
  | GraphQLInputObjectType fields =>
      S (fold_right (fun field d => Nat.max (type_depth (snd field)) d) O
           fields)
  | _ => O
  end.

(** ** The recursive calls *)

(** The value reaches the dispatch on the shape of the type (line 70 and
    below): it is neither [None] nor invalid. *)
Definition dispatched (value : pyvalue) : bool :=
  negb (is_None value) && negb (is_invalid value).

(** [subcall (v, t) (v', t')]: the call [ast_from_value(v, t)] makes the
    recursive call [ast_from_value(v', t')], at line 55, 75, 78 or 90,
    unless an exception of an earlier item or field has ended it. *)
Inductive subcall : pyvalue * gtype -> pyvalue * gtype -> Prop :=
| call_of_type : forall value of_type,
    subcall (value, GraphQLNonNull of_type) (value, of_type)
| call_item : forall value item_type item,
    dispatched value = true ->
    is_iterable value && negb (is_str value) = true ->
    In item (iter value) ->
    subcall (value, GraphQLList item_type) (item, item_type)
| call_single : forall value item_type,
    dispatched value = true ->
    is_iterable value && negb (is_str value) = false ->
    subcall (value, GraphQLList item_type) (value, item_type)
| call_field : forall value fields field_name field_type item,
    dispatched value = true ->
    In (field_name, field_type) fields ->
    getitem value field_name = Some item ->
    subcall (value, GraphQLInputObjectType fields) (item, field_type).

(** The calls made in the course of a call, itself included. *)
Inductive reaches : pyvalue * gtype -> pyvalue * gtype -> Prop :=
| reaches_refl : forall c, reaches c c
| reaches_step : forall c c' c'',
    subcall c c' -> reaches c' c'' -> reaches c c''.

(** A serialized value that is none of nullish, [bool], [int], [float] and
    [str]. *)
Definition unrepresentable (serialized : pyvalue) : bool :=
  negb (is_nullish serialized) &&
  match serialized with
  | PyBool _ | PyInt _ | PyFloat _ | PyStr _ => false
  | _ => true
  end.

(** The two places that raise: line 127, for a leaf type whose [serialize]
    returned an unrepresentable value, and line 129, for a type of no known
    shape; both lie behind the checks for [None] and invalid values.
    [raises_here value type_] is the exception that the body of the call
    [ast_from_value(value, type_)] raises itself, if any. *)
Definition raises_here (value : pyvalue) (type_ : gtype)
  : option type_error :=
  if dispatched value then
    match type_ with
    | GraphQLScalarType _ serialize | GraphQLEnumType _ serialize =>
        if unrepresentable (serialize value)
        then Some (CannotConvert (serialize value))
        else None
    | GraphQLOther _ => Some (UnknownType type_)
    | _ => None
    end
  else None.

(** A type of none of the shapes the function knows. *)
Definition is_unknown_type (type_ : gtype) : bool :=
  negb (is_non_null_type type_ || is_list_type type_ ||
        is_input_object_type type_ || is_leaf_type type_).

(** ** Induction on types *)

Section gtype_induction.
Variable P : gtype -> Prop.
Hypothesis P_non_null : forall t, P t -> P (GraphQLNonNull t).
Hypothesis P_list : forall t, P t -> P (GraphQLList t).
Hypothesis P_input_object : forall fields,
    Forall (fun field => P (snd field)) fields ->
    P (GraphQLInputObjectType fields).
Hypothesis P_scalar : forall object serialize,
    P (GraphQLScalarType object serialize).
Hypothesis P_enum : forall name serialize,
    P (GraphQLEnumType name serialize).
Hypothesis P_other : forall name, P (GraphQLOther name).

Fixpoint gtype_induction (t : gtype) : P t :=
  match t with
  | GraphQLNonNull t' => P_non_null t' (gtype_induction t')
  | GraphQLList t' => P_list t' (gtype_induction t')
  | GraphQLInputObjectType fields =>
      P_input_object fields
        ((fix all (fs : list (string * gtype))
            : Forall (fun field => P (snd field)) fs :=
            match fs with
            | [] => Forall_nil _
            | f :: fs' => Forall_cons f (gtype_induction (snd f)) (all fs')
            end) fields)
  | GraphQLScalarType object serialize => P_scalar object serialize
  | GraphQLEnumType name serialize => P_enum name serialize
  | GraphQLOther name => P_other name
  end.
End gtype_induction.

(** ** Example types *)

(** A scalar whose [serialize] hands its argument over as it is, which is
    what the built-in scalars do with a value of their own kind. *)
Definition plain_scalar (name : string) : gtype :=
  GraphQLScalarType (NamedScalar name) (fun value => value).

Definition IntType : gtype := plain_scalar "Int".
Definition FloatType : gtype := plain_scalar "Float".
Definition StringType : gtype := plain_scalar "String".

(** The built-in [GraphQLID], with a [serialize] that hands a string over as
    it is; the examples give it strings only. *)
Definition IDType : gtype := GraphQLID (fun value => value).

(** ** Statements about input objects *)

(** The field list in the words of the specification: the declared fields
    in their declared order; a field whose name is a key of the value and
    whose conversion is a node contributes its name and that node, every
    other field contributes nothing. *)
Definition declared_fields (value : pyvalue) (fields : list (string * gtype))
  : list (string * node) :=
  flat_map
    (fun field =>
       match getitem value (fst field) with
       | Some item =>
           match ast_from_value item (snd field) with
           | Ok (Some n) => [(fst field, n)]
           | _ => []
           end
       | None => []
       end)
    fields.

(** No conversion of a field present in the value raises. *)
Definition fields_return (value : pyvalue) (fields : list (string * gtype))
  : Prop :=
  forall field_name field_type item,
    In (field_name, field_type) fields ->
    getitem value field_name = Some item ->
    exists r, ast_from_value item field_type = Ok r.

(** ** The integer pattern, declaratively *)

Fixpoint all_digits (s : string) : bool :=
  match s with
  | EmptyString => true
  | String c s' => is_digit c && all_digits s'
  end.

Definition newline : string := String "010" EmptyString.

(** The strings the pattern describes: a sign, a body and an end, where the
    sign is empty or a minus, the body is [0] or starts with a digit other
    than zero and goes on with digits, and the end is empty or one newline. *)
Definition integer_text (s : string) : Prop :=
  exists sign body tail,
    s = sign ++ body ++ tail /\
    (sign = "" \/ sign = "-") /\
    (body = "0" \/
     exists c rest,
       body = String c rest /\ is_nonzero_digit c = true /\
       all_digits rest = true) /\
    (tail = "" \/ tail = newline).

(** ** Leaf types *)

(** [type_.serialize] of a scalar or enum type. *)
Definition serializer (type_ : gtype) : option (pyvalue -> pyvalue) :=
  match type_ with
  | GraphQLScalarType _ serialize | GraphQLEnumType _ serialize =>
      Some serialize
  | _ => None
  end.

(** The binary64 floats 0.1, 2.5, 1234567.0 and 1234568.0. *)
Definition float_0_1 : pyfloat := S754_finite false 7205759403792794 (-56).
Definition float_2_5 : pyfloat := S754_finite false 5629499534213120 (-51).
Definition float_1234567 : pyfloat :=
  S754_finite false 5302424889720832 (-32).
Definition float_1234568 : pyfloat :=
  S754_finite false 5302429184688128 (-32).

(** ** Where a call raises *)

(** The body of a call raises in the two situations of the specification:
    the value is dispatched and the type is a leaf type whose [serialize]
    returned an unrepresentable value, or a type of unknown shape. *)
Definition fails_at (value : pyvalue) (type_ : gtype) : Prop :=
  is_None value = false /\
  is_invalid value = false /\
  ((is_leaf_type type_ = true /\
    exists serialize,
      serializer type_ = Some serialize /\
      unrepresentable (serialize value) = true) \/
   is_unknown_type type_ = true).

(** ** Statements about the nodes produced *)

(** The integer that a decimal text denotes, if it is one. *)
Definition read_int (text : string) : option Z :=
  option_map Z.of_int (NilZero.int_of_string text).

(** [subsequence l1 l2]: [l1] is [l2] with some elements left out. *)
Inductive subsequence {A : Type} : list A -> list A -> Prop :=
| subsequence_nil : subsequence [] []
| subsequence_skip : forall a l1 l2,
    subsequence l1 l2 -> subsequence l1 (a :: l2)
| subsequence_keep : forall a l1 l2,
    subsequence l1 l2 -> subsequence (a :: l1) (a :: l2).

(** Every int node of a value node, at any depth, has a text that the
    integer pattern matches. *)
Fixpoint int_texts_match (n : node) : Prop :=
  match n with
  | IntValueNode text => re_integer_string_match text = true
  | ListValueNode values =>
      (fix all (l : list (option node)) : Prop :=
         match l with
         | [] => True
         | Some n' :: l' => int_texts_match n' /\ all l'
         | None :: l' => all l'
         end) values
  | ObjectValueNode fields =>
      (fix all (l : list (string * node)) : Prop :=
         match l with
         | [] => True
         | field :: l' => int_texts_match (snd field) /\ all l'
         end) fields
  | _ => True
  end.

(** The nesting depth of a value node: the number of list and object nodes
    above its deepest leaf. *)
Fixpoint node_depth (n : node) : nat :=
  match n with
  | ListValueNode values =>
      S ((fix deepest (l : list (option node)) : nat :=
            match l with
            | [] => O
            | Some n' :: l' => Nat.max (node_depth n') (deepest l')
            | None :: l' => deepest l'
            end) values)
  | ObjectValueNode fields =>
      S ((fix deepest (l : list (string * node)) : nat :=
            match l with
            | [] => O
            | field :: l' => Nat.max (node_depth (snd field)) (deepest l')
            end) fields)
  | _ => O
  end.

(** A type without a place that raises: no type of unknown shape in it, and
    no leaf type whose [serialize] returns an unrepresentable value. *)
Fixpoint never_fails (type_ : gtype) : Prop :=
  match type_ with
  | GraphQLNonNull of_type => never_fails of_type
  | GraphQLList of_type => never_fails of_type
  | GraphQLInputObjectType fields =>
      (fix all (l : list (string * gtype)) : Prop :=
         match l with
         | [] => True
         | field :: l' => never_fails (snd field) /\ all l'
         end) fields
  | GraphQLScalarType _ serialize | GraphQLEnumType _ serialize =>
      forall value, unrepresentable (serialize value) = false
  | GraphQLOther _ => False
  end.

(** * Properties *)

(** ** Basic facts *)

Lemma dispatched_true (value : pyvalue) :
  dispatched value = true <-> is_None value = false /\ is_invalid value = false.
Proof.
  unfold dispatched.
  rewrite andb_true_iff, !negb_true_iff. reflexivity.
Qed.

Lemma ast_from_value_non_null (value : pyvalue) (of_type : gtype) :
  ast_from_value value (GraphQLNonNull of_type) =
  ast_value <- ast_from_value value of_type ;;
  match ast_value with
  | Some NullValueNode => Ok None
  | _ => Ok ast_value
  end.
Proof. reflexivity. Qed.

Lemma ast_from_value_invalid (value : pyvalue) (type_ : gtype) :
  is_invalid value = true -> ast_from_value value type_ = Ok None.
Proof.
  intros Hinv.
  induction type_ as [t IH | | | | | ]; simpl.
  - rewrite IH. reflexivity.
  - destruct value; simpl in *; try discriminate; rewrite ?Hinv; reflexivity.
  - destruct value; simpl in *; try discriminate; rewrite ?Hinv; reflexivity.
  - destruct value; simpl in *; try discriminate; rewrite ?Hinv; reflexivity.
  - destruct value; simpl in *; try discriminate; rewrite ?Hinv; reflexivity.
  - destruct value; simpl in *; try discriminate; rewrite ?Hinv; reflexivity.
Qed.

(** Below the checks for [None] and invalid values, a type that is not a
    non-null type is dispatched on its shape. *)
Lemma ast_from_value_list (value : pyvalue) (item_type : gtype) :
  dispatched value = true ->
  ast_from_value value (GraphQLList item_type) =
  if is_iterable value && negb (is_str value) then
    value_nodes <-
      comprehension (fun item => ast_from_value item item_type) (iter value) ;;
    Ok (Some (ListValueNode value_nodes))
  else ast_from_value value item_type.
Proof.
  intros H. apply dispatched_true in H as [HN HI].
  simpl. rewrite HN, HI. reflexivity.
Qed.

Lemma ast_from_value_input_object (value : pyvalue)
  (fields : list (string * gtype)) :
  dispatched value = true ->
  ast_from_value value (GraphQLInputObjectType fields) =
  if is_mapping value then
    field_nodes <- object_fields ast_from_value value fields ;;
    Ok (Some (ObjectValueNode field_nodes))
  else Ok None.
Proof.
  intros H. apply dispatched_true in H as [HN HI].
  simpl. rewrite HN, HI. simpl.
  destruct (is_mapping value); reflexivity.
Qed.

(** ** Non-null types *)

(** C1. For every value and type, [ast_from_value] under a non-null type
    never returns the null node: it is the result under the inner type, with
    the null node replaced by [Absent] and every other result (a node,
    [Absent], an exception) left as it is. *)
Theorem non_null_never_null (value : pyvalue) (of_type : gtype) :
  ast_from_value value (GraphQLNonNull of_type) <> Ok (Some NullValueNode) /\
  ast_from_value value (GraphQLNonNull of_type) =
  match ast_from_value value of_type with
  | Ok (Some NullValueNode) => Ok Absent
  | other => other
  end.
Proof.
  rewrite ast_from_value_non_null.
  destruct (ast_from_value value of_type) as [[n | ] | e]; simpl.
  - destruct n; split; (discriminate || reflexivity).
  - split; (discriminate || reflexivity).
  - split; (discriminate || reflexivity).
Qed.

(** ** Null and invalid values *)

(** C7. The explicit [None] gives the null node under every type that is not
    a non-null type, whatever its shape, and [Absent] under a non-null type;
    an invalid value ([INVALID] or NaN) gives [Absent] under every type. *)
Theorem null_and_invalid_values (type_ : gtype) :
  ast_from_value PyNone type_ =
    (if is_non_null_type type_ then Ok Absent else Ok (Some NullValueNode)) /\
  ast_from_value PyInvalid type_ = Ok Absent /\
  ast_from_value (PyFloat S754_nan) type_ = Ok Absent.
Proof.
  split; [ | split; apply ast_from_value_invalid; reflexivity ].
  induction type_ as [t IH | | | | | ]; try reflexivity.
  rewrite ast_from_value_non_null, IH.
  destruct (is_non_null_type t); reflexivity.
Qed.

(** ** List types *)

Lemma comprehension_Forall2 {E A B : Type} (f : A -> result E B)
  (l : list A) (results : list B) :
  Forall2 (fun a b => f a = Ok b) l results ->
  comprehension f l = Ok results.
Proof.
  induction 1 as [ | a b l results Hab _ IH]; simpl.
  - reflexivity.
  - rewrite Hab, IH. reflexivity.
Qed.

Lemma iterable_dispatched (value : pyvalue) :
  is_iterable value = true -> dispatched value = true.
Proof. destruct value; simpl; intros; (discriminate || reflexivity). Qed.

(** C2, as the code has it.  A value that is neither [None] nor invalid nor
    an iterable other than a string is converted under a list type as under
    the item type: the result is not wrapped in a list node. *)
Theorem list_of_single_value (value : pyvalue) (item_type : gtype) :
  is_None value = false ->
  is_invalid value = false ->
  is_iterable value && negb (is_str value) = false ->
  ast_from_value value (GraphQLList item_type) =
  ast_from_value value item_type.
Proof.
  intros HN HI Hit.
  rewrite ast_from_value_list by (apply dispatched_true; auto).
  rewrite Hit. reflexivity.
Qed.

Lemma list_of_single_value_witness :
  ast_from_value (PyStr "abc") (GraphQLList StringType) =
  ast_from_value (PyStr "abc") StringType.
Proof.
  apply list_of_single_value; reflexivity.
Defined.

(** C2, as stated, fails: [5] under a list of [Int] gives the node of the
    integer, not a list node holding it. *)
Lemma list_of_single_value_not_wrapped :
  is_iterable (PyInt 5) = false /\
  is_None (PyInt 5) = false /\
  is_invalid (PyInt 5) = false /\
  ast_from_value (PyInt 5) IntType = Ok (Some (IntValueNode "5")) /\
  ast_from_value (PyInt 5) (GraphQLList IntType) =
    Ok (Some (IntValueNode "5")) /\
  ast_from_value (PyInt 5) (GraphQLList IntType) <>
    Ok (Some (ListValueNode [Some (IntValueNode "5")])).
Proof.
  repeat (split; [ reflexivity | ]).
  discriminate.
Qed.

(** C6. An iterable value that is not a string, with items [v1 .. vn] whose
    conversions under the item type return [r1 .. rn], gives the list node
    of [r1 .. rn]: as many entries as items, in the same order, an [Absent]
    result kept at its place. *)
Theorem list_of_items (value : pyvalue) (item_type : gtype)
  (results : list (option node)) :
  is_iterable value = true ->
  is_str value = false ->
  Forall2 (fun item r => ast_from_value item item_type = Ok r)
    (iter value) results ->
  ast_from_value value (GraphQLList item_type) =
    Ok (Some (ListValueNode results)) /\
  List.length results = List.length (iter value).
Proof.
  intros Hit Hstr Hall.
  rewrite ast_from_value_list by (apply iterable_dispatched; exact Hit).
  rewrite Hit, Hstr. simpl.
  rewrite (comprehension_Forall2 _ _ _ Hall).
  split; [ reflexivity | ].
  symmetry. eapply Forall2_length. exact Hall.
Qed.

Lemma list_of_items_witness :
  ast_from_value (PyList [PyInt 1; PyInvalid; PyInt 3]) (GraphQLList IntType) =
    Ok (Some (ListValueNode
                [Some (IntValueNode "1"); Absent; Some (IntValueNode "3")])) /\
  List.length [Some (IntValueNode "1"); Absent; Some (IntValueNode "3")] =
  List.length (iter (PyList [PyInt 1; PyInvalid; PyInt 3])).
Proof.
  apply list_of_items; try reflexivity.
  repeat constructor.
Defined.

(** ** Input object types *)

Lemma object_fields_declared (value : pyvalue)
  (fields : list (string * gtype)) :
  fields_return value fields ->
  object_fields ast_from_value value fields =
  Ok (declared_fields value fields).
Proof.
  induction fields as [ | [field_name field_type] rest IH]; intros Hret.
  - reflexivity.
  - assert (Hrest : fields_return value rest).
    { intros n t item Hin. apply (Hret n t item). right. exact Hin. }
    specialize (IH Hrest).
    unfold declared_fields in *. simpl.
    destruct (getitem value field_name) as [item | ] eqn:Hget.
    + destruct (Hret field_name field_type item (or_introl eq_refl) Hget)
        as [r Hr].
      rewrite Hr. simpl. rewrite IH. destruct r; reflexivity.
    + exact IH.
Qed.

Lemma object_fields_no_key (value : pyvalue)
  (fields : list (string * gtype)) :
  (forall field, In field fields -> getitem value (fst field) = None) ->
  object_fields ast_from_value value fields = Ok [].
Proof.
  induction fields as [ | [field_name field_type] rest IH]; intros Hno.
  - reflexivity.
  - pose proof (Hno (field_name, field_type) (or_introl eq_refl)) as Hget.
    simpl in *. rewrite Hget.
    apply IH. intros field Hin. apply Hno. right. exact Hin.
Qed.

Lemma object_node_of_mapping (value : pyvalue)
  (fields : list (string * gtype)) :
  is_mapping value = true ->
  fields_return value fields ->
  ast_from_value value (GraphQLInputObjectType fields) =
  Ok (Some (ObjectValueNode (declared_fields value fields))).
Proof.
  intros Hmap Hret.
  rewrite ast_from_value_input_object
    by (destruct value; try discriminate; reflexivity).
  rewrite Hmap, object_fields_declared by exact Hret. reflexivity.
Qed.

(** C5, as the code has it.  Under an input object type a value that is not
    [None] gives, when it is a mapping, the object node of the declared
    fields that are keys of the value and convert to a node, in the order of
    their declaration (provided no such conversion raises), and [Absent]
    when it is not a mapping. *)
Theorem input_object_fields (value : pyvalue)
  (fields : list (string * gtype)) :
  is_None value = false ->
  fields_return value fields ->
  ast_from_value value (GraphQLInputObjectType fields) =
  if is_mapping value
  then Ok (Some (ObjectValueNode (declared_fields value fields)))
  else Ok Absent.
Proof.
  intros HN Hret.
  destruct (is_invalid value) eqn:HI.
  - rewrite ast_from_value_invalid by exact HI.
    destruct value; simpl in *; try discriminate; reflexivity.
  - rewrite ast_from_value_input_object by (apply dispatched_true; auto).
    destruct (is_mapping value); [ | reflexivity ].
    rewrite object_fields_declared by exact Hret. reflexivity.
Qed.

Lemma input_object_fields_witness :
  ast_from_value (PyDict [("a", PyInt 1)])
    (GraphQLInputObjectType [("a", IntType); ("b", IntType)]) =
  Ok (Some (ObjectValueNode [("a", IntValueNode "1")])).
Proof.
  apply (input_object_fields (PyDict [("a", PyInt 1)])
           [("a", IntType); ("b", IntType)]).
  - reflexivity.
  - intros field_name field_type item [H | [H | []]] Hget;
      inversion H; subst; simpl in Hget; inversion Hget; subst;
      eexists; reflexivity.
Defined.

(** C5, as stated, fails in its last clause: [None] is not a mapping, and
    under an input object type it gives the null node, not [Absent]. *)
Lemma input_object_of_None :
  is_mapping PyNone = false /\
  ast_from_value PyNone
    (GraphQLInputObjectType [("a", IntType); ("b", IntType)]) =
    Ok (Some NullValueNode) /\
  ast_from_value PyNone
    (GraphQLInputObjectType [("a", IntType); ("b", IntType)]) <> Ok Absent.
Proof.
  repeat (split; [ reflexivity | ]).
  discriminate.
Qed.

(** C10. Under an input object type a mapping never gives [Absent]: the
    call returns an object node whenever the conversions of its fields
    return, and otherwise raises what one of them raised; with no declared
    field among its keys (an empty mapping, say) it returns the object node
    without fields; and a value that gives [Absent] is not a mapping. *)
Theorem input_object_never_absent (entries : list (string * pyvalue))
  (fields : list (string * gtype)) :
  ast_from_value (PyDict entries) (GraphQLInputObjectType fields) <>
    Ok Absent /\
  ((exists field_nodes,
       ast_from_value (PyDict entries) (GraphQLInputObjectType fields) =
       Ok (Some (ObjectValueNode field_nodes))) \/
   (exists e,
       ast_from_value (PyDict entries) (GraphQLInputObjectType fields) =
       Raise e)) /\
  (fields_return (PyDict entries) fields ->
   exists field_nodes,
     ast_from_value (PyDict entries) (GraphQLInputObjectType fields) =
     Ok (Some (ObjectValueNode field_nodes))) /\
  ((forall field, In field fields -> lookup (fst field) entries = None) ->
   ast_from_value (PyDict entries) (GraphQLInputObjectType fields) =
   Ok (Some (ObjectValueNode []))) /\
  (forall value,
      ast_from_value value (GraphQLInputObjectType fields) = Ok Absent ->
      is_mapping value = false).
Proof.
  assert (Hshape : forall value, is_mapping value = true ->
            (exists field_nodes,
                ast_from_value value (GraphQLInputObjectType fields) =
                Ok (Some (ObjectValueNode field_nodes))) \/
            (exists e,
                ast_from_value value (GraphQLInputObjectType fields) =
                Raise e)).
  { intros value Hmap.
    rewrite ast_from_value_input_object
      by (destruct value; try discriminate; reflexivity).
    rewrite Hmap.
    destruct (object_fields ast_from_value value fields) as [nodes | e].
    - left. exists nodes. reflexivity.
    - right. exists e. reflexivity. }
  split; [ | split; [ | split; [ | split ] ] ].
  - destruct (Hshape (PyDict entries) eq_refl) as [[nodes H] | [e H]];
      rewrite H; discriminate.
  - apply Hshape. reflexivity.
  - intros Hret. exists (declared_fields (PyDict entries) fields).
    apply (object_node_of_mapping (PyDict entries)); auto.
  - intros Hno.
    rewrite ast_from_value_input_object by reflexivity. simpl is_mapping.
    cbv iota. rewrite object_fields_no_key by exact Hno. reflexivity.
  - intros value Habsent.
    destruct (is_mapping value) eqn:Hmap; [ | reflexivity ].
    destruct (Hshape value Hmap) as [[nodes H] | [e H]];
      rewrite H in Habsent; discriminate.
Qed.

Lemma input_object_never_absent_witness :
  ast_from_value (PyDict []) (GraphQLInputObjectType [("a", IntType)]) =
    Ok (Some (ObjectValueNode [])) /\
  ast_from_value (PyDict [("x", PyInt 1)])
    (GraphQLInputObjectType [("a", IntType)]) =
    Ok (Some (ObjectValueNode [])) /\
  is_mapping (PyInt 1) = false.
Proof.
  split; [ | split ].
  - apply (proj1 (proj2 (proj2 (proj2
      (input_object_never_absent [] [("a", IntType)]))))).
    intros field [H | []]. subst. reflexivity.
  - apply (proj1 (proj2 (proj2 (proj2
      (input_object_never_absent [("x", PyInt 1)] [("a", IntType)]))))).
    intros field [H | []]. subst. reflexivity.
  - apply (proj2 (proj2 (proj2 (proj2
      (input_object_never_absent [] [("a", IntType)])))) (PyInt 1)).
    reflexivity.
Defined.

(** ** The integer pattern *)

Lemma at_end_iff (s : string) :
  at_end s = true <-> s = "" \/ s = newline.
Proof.
  unfold newline. split.
  - destruct s as [ | c [ | c' s']]; simpl; intros H.
    + left. reflexivity.
    + right. apply Ascii.eqb_eq in H. subst. reflexivity.
    + discriminate.
  - intros [-> | ->]; reflexivity.
Qed.

Lemma at_end_digits_then_end (s : string) :
  at_end s = true -> digits_then_end s = true.
Proof. destruct s; simpl; intros H; [ reflexivity | rewrite H; reflexivity ]. Qed.

Lemma digits_then_end_iff (s : string) :
  digits_then_end s = true <->
  exists digits tail,
    s = digits ++ tail /\ all_digits digits = true /\ at_end tail = true.
Proof.
  split.
  - induction s as [ | c s IH]; intros H.
    + exists "", "". repeat split.
    + simpl in H. apply orb_true_iff in H as [H | H].
      * exists "", (String c s). repeat split. exact H.
      * apply andb_true_iff in H as [Hc Hs].
        destruct (IH Hs) as (digits & tail & -> & Hd & Ht).
        exists (String c digits), tail. repeat split.
        -- simpl. rewrite Hc, Hd. reflexivity.
        -- exact Ht.
  - intros (digits & tail & -> & Hd & Ht).
    induction digits as [ | c digits IH].
    + apply at_end_digits_then_end. exact Ht.
    + simpl in Hd. apply andb_true_iff in Hd as [Hc Hd].
      change (digits_then_end (String c (digits ++ tail)) = true).
      simpl. rewrite Hc, (IH Hd). apply orb_true_r.
Qed.

Lemma natural_then_end_iff (s : string) :
  natural_then_end s = true <->
  exists body tail,
    s = body ++ tail /\
    (body = "0" \/
     exists c rest,
       body = String c rest /\ is_nonzero_digit c = true /\
       all_digits rest = true) /\
    at_end tail = true.
Proof.
  split.
  - destruct s as [ | c s]; simpl; [ discriminate | ].
    destruct (Ascii.eqb c "0") eqn:Hc.
    + apply Ascii.eqb_eq in Hc. subst. intros Ht.
      exists "0", s. repeat split; [ left; reflexivity | exact Ht ].
    + intros H. apply andb_true_iff in H as [Hnz Hs].
      apply digits_then_end_iff in Hs as (digits & tail & -> & Hd & Ht).
      exists (String c digits), tail. repeat split; [ | exact Ht ].
      right. exists c, digits. repeat split; assumption.
  - intros (body & tail & -> & [-> | (c & rest & -> & Hnz & Hd)] & Ht).
    + simpl. exact Ht.
    + change (natural_then_end (String c (rest ++ tail)) = true). simpl.
      destruct (Ascii.eqb c "0") eqn:Hc.
      * apply Ascii.eqb_eq in Hc. subst. discriminate.
      * rewrite Hnz. simpl. apply digits_then_end_iff.
        exists rest, tail. repeat split; assumption.
Qed.

Lemma natural_not_signed (c : ascii) (s : string) :
  natural_then_end (String c s) = true -> Ascii.eqb c "-" = false.
Proof.
  simpl. destruct (Ascii.eqb c "-") eqn:Hc; [ | reflexivity ].
  apply Ascii.eqb_eq in Hc. subst. simpl. discriminate.
Qed.

(** The matcher accepts exactly the strings the pattern describes. *)
Lemma re_integer_string_match_iff (s : string) :
  re_integer_string_match s = true <-> integer_text s.
Proof.
  unfold integer_text. split.
  - destruct s as [ | c s]; unfold re_integer_string_match;
      [ discriminate | ].
    destruct (Ascii.eqb c "-") eqn:Hc; intros H.
    + apply Ascii.eqb_eq in Hc. subst.
      apply natural_then_end_iff in H as (body & tail & -> & Hb & Ht).
      exists "-", body, tail.
      repeat split; [ right; reflexivity | exact Hb | ].
      apply at_end_iff. exact Ht.
    + apply natural_then_end_iff in H as (body & tail & Hs & Hb & Ht).
      exists "", body, tail.
      repeat split; [ exact Hs | left; reflexivity | exact Hb | ].
      apply at_end_iff. exact Ht.
  - intros (sign & body & tail & -> & Hsign & Hb & Ht).
    apply at_end_iff in Ht.
    assert (Hn : natural_then_end (body ++ tail) = true)
      by (apply natural_then_end_iff; exists body, tail; auto).
    destruct Hsign as [-> | ->].
    + simpl. destruct (body ++ tail) as [ | c s] eqn:Hs; [ discriminate | ].
      unfold re_integer_string_match.
      rewrite (natural_not_signed c s Hn). exact Hn.
    + exact Hn.
Qed.

(** ** Leaf types *)

Lemma ast_from_value_leaf (value : pyvalue) (leaf : gtype)
  (serialize : pyvalue -> pyvalue) :
  serializer leaf = Some serialize ->
  dispatched value = true ->
  ast_from_value value leaf = ast_from_serialized leaf (serialize value).
Proof.
  intros Hser H. apply dispatched_true in H as [HN HI].
  destruct leaf; simpl in *; try discriminate;
    inversion Hser; subst; rewrite HN, HI; reflexivity.
Qed.

(** C3. For a leaf type and a value that [serialize] is called on (one that
    is neither [None] nor invalid) and turns into a string: an enum type
    gives an enum node with that text; otherwise the [ID] type gives an int
    node with that text when the text matches the integer pattern; otherwise
    the result is a string node. *)
Theorem leaf_string_node (value : pyvalue) (leaf : gtype)
  (serialize : pyvalue -> pyvalue) (text : string) :
  serializer leaf = Some serialize ->
  is_None value = false ->
  is_invalid value = false ->
  serialize value = PyStr text ->
  ast_from_value value leaf =
  Ok (Some (if is_enum_type leaf then EnumValueNode text
            else if is_GraphQLID leaf && re_integer_string_match text
                 then IntValueNode text
                 else StringValueNode text)).
Proof.
  intros Hser HN HI Hstr.
  rewrite (ast_from_value_leaf value leaf serialize Hser)
    by (apply dispatched_true; auto).
  rewrite Hstr. unfold ast_from_serialized. simpl.
  destruct (is_enum_type leaf); [ reflexivity | ].
  destruct (is_GraphQLID leaf && re_integer_string_match text); reflexivity.
Qed.

(** The examples of the specification for the [ID] type, which is the
    built-in object; a scalar type of one's own that is named ["ID"] is not
    that object and gives a string node. *)
Lemma leaf_string_node_witness :
  ast_from_value (PyStr "123") IDType = Ok (Some (IntValueNode "123")) /\
  ast_from_value (PyStr "-7") IDType = Ok (Some (IntValueNode "-7")) /\
  ast_from_value (PyStr "abc123") IDType =
    Ok (Some (StringValueNode "abc123")) /\
  ast_from_value (PyStr "007") IDType = Ok (Some (StringValueNode "007")) /\
  ast_from_value (PyStr "123") (plain_scalar "ID") =
    Ok (Some (StringValueNode "123")) /\
  ast_from_value (PyStr "123") StringType =
    Ok (Some (StringValueNode "123")) /\
  ast_from_value (PyStr "RED") (GraphQLEnumType "Color" (fun value => value)) =
    Ok (Some (EnumValueNode "RED")).
Proof.
  refine (conj _ (conj _ (conj _ (conj _ (conj _ (conj _ _)))))).
  - exact (leaf_string_node (PyStr "123") IDType (fun value => value) "123"
             eq_refl eq_refl eq_refl eq_refl).
  - exact (leaf_string_node (PyStr "-7") IDType (fun value => value) "-7"
             eq_refl eq_refl eq_refl eq_refl).
  - exact (leaf_string_node (PyStr "abc123") IDType (fun value => value)
             "abc123" eq_refl eq_refl eq_refl eq_refl).
  - exact (leaf_string_node (PyStr "007") IDType (fun value => value) "007"
             eq_refl eq_refl eq_refl eq_refl).
  - exact (leaf_string_node (PyStr "123") (plain_scalar "ID")
             (fun value => value) "123" eq_refl eq_refl eq_refl eq_refl).
  - exact (leaf_string_node (PyStr "123") StringType (fun value => value)
             "123" eq_refl eq_refl eq_refl eq_refl).
  - exact (leaf_string_node (PyStr "RED")
             (GraphQLEnumType "Color" (fun value => value))
             (fun value => value) "RED" eq_refl eq_refl eq_refl eq_refl).
Defined.


Lemma example_floats_binary64 :
  forallb binary64
    [float_0_1; float_2_5; float_1234567; float_1234568] = true.
Proof. vm_compute. reflexivity. Qed.



(** ** Termination *)

Lemma comprehension_propagate {A B : Type} (f : A -> result type_error B)
  (g : A -> result fault B) (l : list A) :
  (forall a, In a l -> g a = propagate (f a)) ->
  comprehension g l = propagate (comprehension f l).
Proof.
  induction l as [ | a l IH]; intros Hfg; simpl.
  - reflexivity.
  - rewrite (Hfg a (or_introl eq_refl)).
    rewrite IH by (intros b Hb; apply Hfg; right; exact Hb).
    destruct (f a) as [b | e]; simpl; [ | reflexivity ].
    destruct (comprehension f l); reflexivity.
Qed.

Lemma object_fields_propagate
  (convert : pyvalue -> gtype -> result type_error (option node))
  (convert' : pyvalue -> gtype -> result fault (option node))
  (value : pyvalue) (fields : list (string * gtype)) :
  (forall field item, In field fields ->
     convert' item (snd field) = propagate (convert item (snd field))) ->
  object_fields convert' value fields =
  propagate (object_fields convert value fields).
Proof.
  induction fields as [ | [field_name field_type] rest IH]; intros Hc; simpl.
  - reflexivity.
  - rewrite IH by (intros f item Hf; apply Hc; right; exact Hf).
    destruct (getitem value field_name) as [item | ]; [ | reflexivity ].
    pose proof (Hc (field_name, field_type) item (or_introl eq_refl))
      as Hitem.
    simpl in Hitem. rewrite Hitem.
    destruct (convert item field_type) as [r | e]; simpl; [ | reflexivity ].
    destruct (object_fields convert value rest) as [nodes | e]; simpl;
      [ | reflexivity ].
    destruct r; reflexivity.
Qed.

Lemma field_depth (fields : list (string * gtype)) (field : string * gtype) :
  In field fields ->
  (type_depth (snd field) < type_depth (GraphQLInputObjectType fields))%nat.
Proof.
  simpl. induction fields as [ | f rest IH]; intros Hin.
  - destruct Hin.
  - simpl. destruct Hin as [-> | Hin].
    + lia.
    + specialize (IH Hin). lia.
Qed.

Lemma subcall_depth (c c' : pyvalue * gtype) :
  subcall c c' -> (type_depth (snd c') < type_depth (snd c))%nat.
Proof.
  intros H. destruct H; try (simpl; lia).
  apply (field_depth fields (field_name, field_type)). assumption.
Qed.

Lemma within_depth (type_ : gtype) :
  forall (depth : nat) (value : pyvalue),
    (type_depth type_ < depth)%nat ->
    ast_from_value_within depth value type_ =
    propagate (ast_from_value value type_).
Proof.
  induction type_ as [t IH | t IH | fields IH | | | ] using gtype_induction;
    intros depth value Hdepth;
    (destruct depth as [ | depth']; [ lia | ]).
  - simpl in Hdepth. simpl.
    rewrite IH by lia.
    destruct (ast_from_value value t) as [[n | ] | e]; simpl;
      try reflexivity.
    destruct n; reflexivity.
  - simpl in Hdepth. simpl.
    destruct (is_None value); [ reflexivity | ].
    destruct (is_invalid value); [ reflexivity | ].
    destruct (is_iterable value && negb (is_str value)).
    + rewrite (comprehension_propagate
                 (fun item => ast_from_value item t))
        by (intros item _; apply IH; lia).
      destruct (comprehension _ (iter value)); reflexivity.
    + apply IH. lia.
  - simpl.
    destruct (is_None value); [ reflexivity | ].
    destruct (is_invalid value); [ reflexivity | ].
    simpl. destruct (is_mapping value); [ | reflexivity ]. simpl.
    rewrite (object_fields_propagate ast_from_value).
    + destruct (object_fields ast_from_value value fields); reflexivity.
    + intros field item Hin.
      rewrite Forall_forall in IH. apply (IH field Hin).
      pose proof (field_depth fields field Hin). lia.
  - simpl.
    destruct (is_None value); [ reflexivity | ].
    destruct (is_invalid value); reflexivity.
  - simpl.
    destruct (is_None value); [ reflexivity | ].
    destruct (is_invalid value); reflexivity.
  - simpl.
    destruct (is_None value); [ reflexivity | ].
    destruct (is_invalid value); reflexivity.
Qed.

(** C9. Every recursive call is on a type of smaller depth (the inner type
    of a non-null type, the item type of a list type, the type of a field of
    an input object type), so that the calls are well-founded; run with a
    call stack deeper than the type, the function never runs out of stack
    and ends as [ast_from_value] does: with a node, with [Absent] or with
    one of its two exceptions. *)
Theorem conversion_terminates :
  (forall c c', subcall c c' ->
                (type_depth (snd c') < type_depth (snd c))%nat) /\
  well_founded (fun c' c => subcall c c') /\
  (forall depth value type_,
      (type_depth type_ < depth)%nat ->
      ast_from_value_within depth value type_ =
      propagate (ast_from_value value type_) /\
      ast_from_value_within depth value type_ <> Raise RecursionLimit) /\
  (forall value type_,
      (exists n, ast_from_value value type_ = Ok (Some n)) \/
      ast_from_value value type_ = Ok Absent \/
      (exists serialized,
          ast_from_value value type_ = Raise (CannotConvert serialized)) \/
      (exists unknown,
          ast_from_value value type_ = Raise (UnknownType unknown))).
Proof.
  split; [ exact subcall_depth | ].
  split.
  { apply (well_founded_lt_compat _ (fun c => type_depth (snd c))).
    intros c' c. apply subcall_depth. }
  split.
  - intros depth value type_ Hdepth.
    rewrite within_depth by exact Hdepth.
    split; [ reflexivity | ].
    destruct (ast_from_value value type_); discriminate.
  - intros value type_.
    destruct (ast_from_value value type_) as [[n | ] | [s | u]]; eauto.
Qed.

Lemma conversion_terminates_witness :
  ast_from_value_within 3 (PyList [PyInt 1; PyNone])
    (GraphQLNonNull (GraphQLList IntType)) =
  Ok (Some (ListValueNode [Some (IntValueNode "1"); Some NullValueNode])).
Proof.
  assert (Hdepth : (type_depth (GraphQLNonNull (GraphQLList IntType)) < 3)%nat)
    by (simpl; lia).
  exact (proj1 (proj1 (proj2 (proj2 conversion_terminates))
                  3%nat (PyList [PyInt 1; PyNone])
                  (GraphQLNonNull (GraphQLList IntType)) Hdepth)).
Defined.

(** ** Type errors *)

Lemma comprehension_raise {E A B : Type} (f : A -> result E B) (l : list A)
  (a : A) (e : E) :
  In a l -> f a = Raise e -> exists e', comprehension f l = Raise e'.
Proof.
  induction l as [ | b l IH]; intros Hin Hraise.
  - destruct Hin.
  - simpl. destruct Hin as [-> | Hin].
    + rewrite Hraise. exists e. reflexivity.
    + destruct (f b) as [r | e0]; simpl; [ | exists e0; reflexivity ].
      destruct (IH Hin Hraise) as [e' He']. rewrite He'.
      exists e'. reflexivity.
Qed.

Lemma comprehension_raised {E A B : Type} (f : A -> result E B) (l : list A)
  (e : E) :
  comprehension f l = Raise e -> exists a, In a l /\ f a = Raise e.
Proof.
  induction l as [ | b l IH]; simpl; intros Hraise.
  - discriminate.
  - destruct (f b) as [r | e0] eqn:Hb; simpl in Hraise.
    + destruct (comprehension f l) as [rs | e1]; simpl in Hraise;
        [ discriminate | ].
      inversion Hraise; subst.
      destruct (IH eq_refl) as [a [Hin Ha]].
      exists a. split; [ right; exact Hin | exact Ha ].
    + inversion Hraise; subst. exists b. split; [ left; reflexivity | exact Hb ].
Qed.

Lemma object_fields_raise {E : Type}
  (convert : pyvalue -> gtype -> result E (option node)) (value : pyvalue)
  (fields : list (string * gtype)) (field_name : string) (field_type : gtype)
  (item : pyvalue) (e : E) :
  In (field_name, field_type) fields ->
  getitem value field_name = Some item ->
  convert item field_type = Raise e ->
  exists e', object_fields convert value fields = Raise e'.
Proof.
  induction fields as [ | [name t] rest IH]; intros Hin Hget Hraise.
  - destruct Hin.
  - simpl. destruct Hin as [Heq | Hin].
    + inversion Heq; subst. rewrite Hget, Hraise. exists e. reflexivity.
    + destruct (IH Hin Hget Hraise) as [e' He'].
      destruct (getitem value name) as [other | ].
      * destruct (convert other t) as [r | e0]; simpl;
          [ | exists e0; reflexivity ].
        rewrite He'. exists e'. reflexivity.
      * exists e'. exact He'.
Qed.

Lemma object_fields_raised {E : Type}
  (convert : pyvalue -> gtype -> result E (option node)) (value : pyvalue)
  (fields : list (string * gtype)) (e : E) :
  object_fields convert value fields = Raise e ->
  exists field_name field_type item,
    In (field_name, field_type) fields /\
    getitem value field_name = Some item /\
    convert item field_type = Raise e.
Proof.
  induction fields as [ | [name t] rest IH]; simpl; intros Hraise.
  - discriminate.
  - destruct (getitem value name) as [other | ] eqn:Hget.
    + destruct (convert other t) as [r | e0] eqn:Hother; simpl in Hraise.
      * destruct (object_fields convert value rest) as [nodes | e1] eqn:Hrest;
          simpl in Hraise.
        { destruct r; discriminate. }
        inversion Hraise; subst.
        destruct (IH eq_refl) as (n' & t' & item & Hin & Hg & Hc).
        exists n', t', item. split; [ right; exact Hin | split; assumption ].
      * inversion Hraise; subst.
        exists name, t, other.
        split; [ left; reflexivity | split; assumption ].
    + destruct (IH Hraise) as (n' & t' & item & Hin & Hg & Hc).
      exists n', t', item. split; [ right; exact Hin | split; assumption ].
Qed.

Lemma raises_here_raise (value : pyvalue) (type_ : gtype) (e : type_error) :
  raises_here value type_ = Some e -> ast_from_value value type_ = Raise e.
Proof.
  unfold raises_here. destruct (dispatched value) eqn:Hd; [ | discriminate ].
  apply dispatched_true in Hd as [HN HI].
  destruct type_; try discriminate; simpl; rewrite HN, HI.
  - destruct (unrepresentable (serialize value)) eqn:Hu; [ | discriminate ].
    intros H; inversion H; subst.
    unfold unrepresentable in Hu. apply andb_true_iff in Hu as [Hn Hk].
    apply negb_true_iff in Hn. unfold ast_from_serialized. rewrite Hn.
    destruct (serialize value); try discriminate; reflexivity.
  - destruct (unrepresentable (serialize value)) eqn:Hu; [ | discriminate ].
    intros H; inversion H; subst.
    unfold unrepresentable in Hu. apply andb_true_iff in Hu as [Hn Hk].
    apply negb_true_iff in Hn. unfold ast_from_serialized. rewrite Hn.
    destruct (serialize value); try discriminate; reflexivity.
  - intros H; inversion H; subst. reflexivity.
Qed.

Lemma ast_from_serialized_raised (type_ : gtype) (serialized : pyvalue)
  (e : type_error) :
  ast_from_serialized type_ serialized = Raise e ->
  unrepresentable serialized = true /\ e = CannotConvert serialized.
Proof.
  unfold ast_from_serialized, unrepresentable.
  destruct (is_nullish serialized); [ discriminate | ].
  destruct serialized; simpl; try discriminate;
    try (intros H; inversion H; split; reflexivity).
  destruct (is_enum_type type_); [ discriminate | ].
  destruct (is_GraphQLID type_ && re_integer_string_match s); discriminate.
Qed.

Lemma subcall_raise (c c' : pyvalue * gtype) :
  subcall c c' ->
  (exists e, ast_from_value (fst c') (snd c') = Raise e) ->
  exists e, ast_from_value (fst c) (snd c) = Raise e.
Proof.
  intros Hcall [e He]. destruct Hcall; cbn [fst snd] in *.
  - rewrite ast_from_value_non_null, He. exists e. reflexivity.
  - rewrite ast_from_value_list by assumption. rewrite H0.
    destruct (comprehension_raise
                (fun item => ast_from_value item item_type)
                (iter value) item e H1 He) as [e' He'].
    rewrite He'. exists e'. reflexivity.
  - rewrite ast_from_value_list by assumption. rewrite H0.
    exists e. exact He.
  - rewrite ast_from_value_input_object by assumption.
    destruct value; simpl in H1; try discriminate. simpl is_mapping.
    cbv iota.
    destruct (object_fields_raise ast_from_value (PyDict entries) fields
                field_name field_type item e H0 H1 He) as [e' He'].
    rewrite He'. exists e'. reflexivity.
Qed.

Lemma reaches_raise (c c' : pyvalue * gtype) (e' : type_error) :
  reaches c c' ->
  raises_here (fst c') (snd c') = Some e' ->
  exists e, ast_from_value (fst c) (snd c) = Raise e.
Proof.
  induction 1 as [c | c c1 c2 Hcall _ IH]; intros Hhere.
  - exists e'. apply raises_here_raise. exact Hhere.
  - apply (subcall_raise c c1 Hcall). apply IH. exact Hhere.
Qed.

Lemma raise_reaches (type_ : gtype) :
  forall (value : pyvalue) (e : type_error),
    ast_from_value value type_ = Raise e ->
    exists value' type',
      reaches (value, type_) (value', type') /\
      raises_here value' type' = Some e.
Proof.
  induction type_ as [t IH | t IH | fields IH | name ser | name ser | name]
    using gtype_induction; intros value e Hraise.
  - rewrite ast_from_value_non_null in Hraise.
    destruct (ast_from_value value t) as [[n | ] | e0] eqn:Ht;
      simpl in Hraise; try discriminate.
    + destruct n; discriminate.
    + inversion Hraise; subst.
      destruct (IH value e Ht) as (v' & t' & Hreach & Hhere).
      exists v', t'. split; [ | exact Hhere ].
      eapply reaches_step; [ apply call_of_type | exact Hreach ].
  - destruct (dispatched value) eqn:Hd.
    + rewrite ast_from_value_list in Hraise by exact Hd.
      destruct (is_iterable value && negb (is_str value)) eqn:Hit.
      * destruct (comprehension _ (iter value)) as [rs | e0] eqn:Hc;
          simpl in Hraise; [ discriminate | ].
        inversion Hraise; subst.
        destruct (comprehension_raised _ _ _ Hc) as (item & Hin & Hitem).
        destruct (IH item e Hitem) as (v' & t' & Hreach & Hhere).
        exists v', t'. split; [ | exact Hhere ].
        eapply reaches_step; [ | exact Hreach ].
        apply call_item; assumption.
      * destruct (IH value e Hraise) as (v' & t' & Hreach & Hhere).
        exists v', t'. split; [ | exact Hhere ].
        eapply reaches_step; [ | exact Hreach ].
        apply call_single; assumption.
    + unfold dispatched in Hd. simpl in Hraise.
      destruct (is_None value); [ discriminate | ].
      destruct (is_invalid value); [ discriminate | discriminate ].
  - destruct (dispatched value) eqn:Hd.
    + rewrite ast_from_value_input_object in Hraise by exact Hd.
      destruct (is_mapping value); [ | discriminate ].
      destruct (object_fields ast_from_value value fields) as [ns | e0] eqn:Ho;
        simpl in Hraise; [ discriminate | ].
      inversion Hraise; subst.
      destruct (object_fields_raised _ _ _ _ Ho)
        as (fname & ftype & item & Hin & Hget & Hitem).
      rewrite Forall_forall in IH.
      destruct (IH (fname, ftype) Hin item e Hitem)
        as (v' & t' & Hreach & Hhere).
      exists v', t'. split; [ | exact Hhere ].
      eapply reaches_step; [ | exact Hreach ].
      eapply call_field; eassumption.
    + unfold dispatched in Hd. simpl in Hraise.
      destruct (is_None value); [ discriminate | ].
      destruct (is_invalid value); [ discriminate | discriminate ].
  - exists value, (GraphQLScalarType name ser).
    split; [ apply reaches_refl | ].
    unfold raises_here, dispatched. simpl in Hraise.
    destruct (is_None value); [ discriminate | ].
    destruct (is_invalid value); [ discriminate | ]. simpl.
    apply ast_from_serialized_raised in Hraise as [Hu ->].
    rewrite Hu. reflexivity.
  - exists value, (GraphQLEnumType name ser).
    split; [ apply reaches_refl | ].
    unfold raises_here, dispatched. simpl in Hraise.
    destruct (is_None value); [ discriminate | ].
    destruct (is_invalid value); [ discriminate | ]. simpl.
    apply ast_from_serialized_raised in Hraise as [Hu ->].
    rewrite Hu. reflexivity.
  - exists value, (GraphQLOther name).
    split; [ apply reaches_refl | ].
    unfold raises_here, dispatched. simpl in Hraise.
    destruct (is_None value); [ discriminate | ].
    destruct (is_invalid value); [ discriminate | ]. simpl.
    inversion Hraise. reflexivity.
Qed.

Lemma raises_here_fails_at (value : pyvalue) (type_ : gtype) :
  (exists e, raises_here value type_ = Some e) <-> fails_at value type_.
Proof.
  unfold raises_here, fails_at. split.
  - intros [e He].
    destruct (dispatched value) eqn:Hd; [ | discriminate ].
    apply dispatched_true in Hd as [HN HI].
    split; [ exact HN | split; [ exact HI | ] ].
    destruct type_; try discriminate.
    + left. split; [ reflexivity | ]. exists serialize.
      destruct (unrepresentable (serialize value)); [ | discriminate ].
      split; reflexivity.
    + left. split; [ reflexivity | ]. exists serialize.
      destruct (unrepresentable (serialize value)); [ | discriminate ].
      split; reflexivity.
    + right. reflexivity.
  - intros (HN & HI & Hcase).
    assert (Hd : dispatched value = true) by (apply dispatched_true; auto).
    rewrite Hd.
    destruct Hcase as [(Hleaf & ser & Hser & Hu) | Hunknown].
    + destruct type_; simpl in Hser; try discriminate;
        inversion Hser; subst; rewrite Hu; eauto.
    + destruct type_; simpl in Hunknown; try discriminate. eauto.
Qed.

(** C4, as the code has it.  A call raises [TypeError] exactly when one of
    the calls made in its course, itself included, has a value that is
    neither [None] nor invalid and either a leaf type whose [serialize]
    returned a value that is neither nullish nor a [bool], [int], [float] or
    [str], or a type of unknown shape; the exception raised is the one of
    such a call.  An invalid value, a value other than [None] that is not a
    mapping under an input object type, a nullish serialization result and
    a null node under a non-null type all give [Absent]. *)
Theorem type_error_iff (value : pyvalue) (type_ : gtype) :
  ((exists e, ast_from_value value type_ = Raise e) <->
   (exists value' type',
       reaches (value, type_) (value', type') /\ fails_at value' type')) /\
  (forall e,
      ast_from_value value type_ = Raise e ->
      exists value' type',
        reaches (value, type_) (value', type') /\
        raises_here value' type' = Some e) /\
  (is_invalid value = true -> ast_from_value value type_ = Ok Absent) /\
  (forall fields,
      is_None value = false -> is_mapping value = false ->
      ast_from_value value (GraphQLInputObjectType fields) = Ok Absent) /\
  (forall serialize,
      serializer type_ = Some serialize ->
      is_None value = false -> is_invalid value = false ->
      is_nullish (serialize value) = true ->
      ast_from_value value type_ = Ok Absent) /\
  (ast_from_value value type_ = Ok (Some NullValueNode) ->
   ast_from_value value (GraphQLNonNull type_) = Ok Absent).
Proof.
  refine (conj _ (conj _ (conj _ (conj _ (conj _ _))))).
  - split.
    + intros [e He].
      destruct (raise_reaches type_ value e He) as (v' & t' & Hreach & Hhere).
      exists v', t'. split; [ exact Hreach | ].
      apply raises_here_fails_at. exists e. exact Hhere.
    + intros (v' & t' & Hreach & Hfail).
      apply raises_here_fails_at in Hfail as [e' He'].
      apply (reaches_raise (value, type_) (v', t') e' Hreach He').
  - apply raise_reaches.
  - apply ast_from_value_invalid.
  - intros fields HN Hmap.
    destruct (is_invalid value) eqn:HI.
    + apply ast_from_value_invalid. exact HI.
    + rewrite ast_from_value_input_object by (apply dispatched_true; auto).
      rewrite Hmap. reflexivity.
  - intros serialize Hser HN HI Hnullish.
    rewrite (ast_from_value_leaf value type_ serialize Hser)
      by (apply dispatched_true; auto).
    unfold ast_from_serialized. rewrite Hnullish. reflexivity.
  - intros Hnull. rewrite ast_from_value_non_null, Hnull. reflexivity.
Qed.

Lemma type_error_iff_witness :
  exists e,
    ast_from_value (PyList [PyInt 1])
      (GraphQLNonNull (GraphQLList (GraphQLOther "Query"))) = Raise e.
Proof.
  apply (proj2 (proj1 (type_error_iff (PyList [PyInt 1])
                         (GraphQLNonNull (GraphQLList (GraphQLOther "Query")))))).
  exists (PyInt 1), (GraphQLOther "Query"). split.
  - eapply reaches_step; [ apply call_of_type | ].
    eapply reaches_step; [ | apply reaches_refl ].
    apply call_item; [ reflexivity | reflexivity | left; reflexivity ].
  - split; [ reflexivity | split; [ reflexivity | right; reflexivity ] ].
Defined.

(** C4, as stated, fails in both directions.  A type of unknown shape does
    not raise for [None] or an invalid value, which are answered before the
    shape is looked at; and a call whose own type is a non-null type, neither
    a leaf nor unknown, raises what a call inside it raised. *)
Lemma type_error_not_by_shape_alone :
  is_unknown_type (GraphQLOther "Query") = true /\
  ast_from_value PyNone (GraphQLOther "Query") = Ok (Some NullValueNode) /\
  ast_from_value PyInvalid (GraphQLOther "Query") = Ok Absent /\
  is_leaf_type (GraphQLNonNull (GraphQLOther "Query")) = false /\
  is_unknown_type (GraphQLNonNull (GraphQLOther "Query")) = false /\
  ast_from_value (PyInt 5) (GraphQLNonNull (GraphQLOther "Query")) =
    Raise (UnknownType (GraphQLOther "Query")).
Proof.
  repeat (split; [ reflexivity | ]). reflexivity.
Qed.

(** * Further properties *)

(** ** What a call that returns has done *)

Lemma comprehension_returned {E A B : Type} (f : A -> result E B)
  (l : list A) (results : list B) :
  comprehension f l = Ok results ->
  Forall2 (fun a b => f a = Ok b) l results.
Proof.
  revert results. induction l as [ | a l IH]; simpl; intros results H.
  - inversion H. constructor.
  - destruct (f a) as [b | e] eqn:Ha; simpl in H; [ | discriminate ].
    destruct (comprehension f l) as [bs | e]; simpl in H; [ | discriminate ].
    inversion H; subst. constructor; [ exact Ha | apply IH; reflexivity ].
Qed.

Lemma object_fields_returned {E : Type}
  (convert : pyvalue -> gtype -> result E (option node)) (value : pyvalue)
  (fields : list (string * gtype)) (nodes : list (string * node)) :
  object_fields convert value fields = Ok nodes ->
  subsequence (map fst nodes) (map fst fields) /\
  (forall field_name n,
      In (field_name, n) nodes ->
      exists field_type item,
        In (field_name, field_type) fields /\
        getitem value field_name = Some item /\
        convert item field_type = Ok (Some n)) /\
  (forall field_name field_type item,
      In (field_name, field_type) fields ->
      getitem value field_name = Some item ->
      exists r, convert item field_type = Ok r).
Proof.
  revert nodes.
  induction fields as [ | [name t] rest IH]; simpl; intros nodes H.
  - inversion H. split; [ constructor | ].
    split; [ intros ? ? [] | intros ? ? ? [] ].
  - destruct (getitem value name) as [item | ] eqn:Hget.
    + destruct (convert item t) as [r | e] eqn:Hitem; simpl in H;
        [ | discriminate ].
      destruct (object_fields convert value rest) as [ns | e] eqn:Hrest;
        simpl in H; [ | discriminate ].
      destruct (IH ns eq_refl) as (Hsub & Hfrom & Hret).
      assert (Hret' : forall field_name field_type item0,
                 (name, t) = (field_name, field_type) \/
                 In (field_name, field_type) rest ->
                 getitem value field_name = Some item0 ->
                 exists r0, convert item0 field_type = Ok r0).
      { intros fname ftype item0 [Heq | Hin] Hg.
        - inversion Heq; subst. rewrite Hget in Hg. inversion Hg; subst.
          exists r. exact Hitem.
        - apply (Hret fname ftype item0 Hin Hg). }
      destruct r as [n | ]; inversion H; subst; simpl.
      * split; [ apply subsequence_keep; exact Hsub | ].
        split; [ | exact Hret' ].
        intros fname n' [Heq | Hin].
        -- inversion Heq; subst. exists t, item.
           split; [ left; reflexivity | split; assumption ].
        -- destruct (Hfrom fname n' Hin) as (t' & item' & Hin' & Hg & Hc).
           exists t', item'. split; [ right; exact Hin' | split; assumption ].
      * split; [ apply subsequence_skip; exact Hsub | ].
        split; [ | exact Hret' ].
        intros fname n' Hin.
        destruct (Hfrom fname n' Hin) as (t' & item' & Hin' & Hg & Hc).
        exists t', item'. split; [ right; exact Hin' | split; assumption ].
    + destruct (IH nodes H) as (Hsub & Hfrom & Hret).
      split; [ apply subsequence_skip; exact Hsub | ].
      split.
      * intros fname n' Hin.
        destruct (Hfrom fname n' Hin) as (t' & item' & Hin' & Hg & Hc).
        exists t', item'. split; [ right; exact Hin' | split; assumption ].
      * intros fname ftype item0 [Heq | Hin] Hg.
        -- inversion Heq; subst. rewrite Hget in Hg. discriminate.
        -- apply (Hret fname ftype item0 Hin Hg).
Qed.

(** ** The null node *)

Lemma ast_from_serialized_not_null (type_ : gtype) (serialized : pyvalue) :
  ast_from_serialized type_ serialized <> Ok (Some NullValueNode).
Proof.
  unfold ast_from_serialized.
  destruct (is_nullish serialized); [ discriminate | ].
  destruct serialized; try discriminate.
  destruct (is_enum_type type_); [ discriminate | ].
  destruct (is_GraphQLID type_ && re_integer_string_match s); discriminate.
Qed.

Lemma null_node_only_for_None (value : pyvalue) (type_ : gtype) :
  ast_from_value value type_ = Ok (Some NullValueNode) -> value = PyNone.
Proof.
  induction type_ as [t IH | t IH | fields | name ser | name ser | name];
    intros H.
  - exfalso. revert H. rewrite ast_from_value_non_null.
    destruct (ast_from_value value t) as [[n | ] | e]; simpl;
      try discriminate.
    destruct n; discriminate.
  - destruct (dispatched value) eqn:Hd.
    + rewrite ast_from_value_list in H by exact Hd.
      destruct (is_iterable value && negb (is_str value)).
      * destruct (comprehension _ (iter value)); discriminate.
      * apply IH. exact H.
    + destruct value; simpl in *; try discriminate; try reflexivity.
      unfold dispatched in Hd. simpl in Hd.
      destruct (is_nan f); [ discriminate H | discriminate Hd ].
  - destruct (dispatched value) eqn:Hd.
    + rewrite ast_from_value_input_object in H by exact Hd.
      destruct (is_mapping value); [ | discriminate ].
      destruct (object_fields ast_from_value value fields); discriminate.
    + destruct value; simpl in *; try discriminate; try reflexivity.
      unfold dispatched in Hd. simpl in Hd.
      destruct (is_nan f); [ discriminate H | discriminate Hd ].
  - destruct (dispatched value) eqn:Hd.
    + rewrite (ast_from_value_leaf value (GraphQLScalarType name ser) ser
                 eq_refl Hd) in H.
      exfalso. exact (ast_from_serialized_not_null _ _ H).
    + destruct value; simpl in *; try discriminate; try reflexivity.
      unfold dispatched in Hd. simpl in Hd.
      destruct (is_nan f); [ discriminate H | discriminate Hd ].
  - destruct (dispatched value) eqn:Hd.
    + rewrite (ast_from_value_leaf value (GraphQLEnumType name ser) ser
                 eq_refl Hd) in H.
      exfalso. exact (ast_from_serialized_not_null _ _ H).
    + destruct value; simpl in *; try discriminate; try reflexivity.
      unfold dispatched in Hd. simpl in Hd.
      destruct (is_nan f); [ discriminate H | discriminate Hd ].
  - destruct value; simpl in *; try discriminate; try reflexivity.
    destruct (is_nan f); discriminate.
Qed.

(** X1. The null node is the answer to the explicit [None] under a type
    that is not a non-null type, and to nothing else: no other value and no
    non-null type gives it, whatever [serialize] returns. *)
Theorem null_node_iff (value : pyvalue) (type_ : gtype) :
  ast_from_value value type_ = Ok (Some NullValueNode) <->
  value = PyNone /\ is_non_null_type type_ = false.
Proof.
  split.
  - intros H. split; [ apply (null_node_only_for_None value type_ H) | ].
    destruct type_; try reflexivity.
    exfalso. revert H. rewrite ast_from_value_non_null.
    destruct (ast_from_value value type_) as [[n | ] | e]; simpl;
      try discriminate.
    destruct n; discriminate.
  - intros [-> Hnn]. destruct type_; try reflexivity. discriminate.
Qed.

(** X2. A non-null type changes nothing for a value other than [None], and
    a second non-null wrapper changes nothing for any value. *)
Theorem non_null_transparent (value : pyvalue) (of_type : gtype) :
  (value <> PyNone ->
   ast_from_value value (GraphQLNonNull of_type) =
   ast_from_value value of_type) /\
  ast_from_value value (GraphQLNonNull (GraphQLNonNull of_type)) =
  ast_from_value value (GraphQLNonNull of_type).
Proof.
  assert (Hkeep : forall t,
             ast_from_value value t <> Ok (Some NullValueNode) ->
             ast_from_value value (GraphQLNonNull t) = ast_from_value value t).
  { intros t Hnot. rewrite ast_from_value_non_null.
    destruct (ast_from_value value t) as [[n | ] | e]; simpl;
      try reflexivity.
    destruct n; try reflexivity. exfalso. apply Hnot. reflexivity. }
  split.
  - intros Hvalue. apply Hkeep. intros H. apply Hvalue.
    apply (null_node_only_for_None value of_type H).
  - apply Hkeep. intros H.
    rewrite ast_from_value_non_null in H.
    destruct (ast_from_value value of_type) as [[n | ] | e]; simpl in H;
      try discriminate.
    destruct n; discriminate.
Qed.

Lemma non_null_transparent_witness :
  ast_from_value (PyList [PyNone]) (GraphQLNonNull (GraphQLList IntType)) =
  ast_from_value (PyList [PyNone]) (GraphQLList IntType).
Proof.
  apply (proj1 (non_null_transparent (PyList [PyNone]) (GraphQLList IntType))).
  discriminate.
Defined.

(** ** Lists: returning and raising *)

(** X3. Under a list type, an iterable value that is not a string returns
    exactly when each of its items returns under the item type, and then it
    returns the list node of their results; it never returns [Absent] or a
    node of another kind. *)
Theorem list_returns_iff (value : pyvalue) (item_type : gtype)
  (r : option node) :
  is_iterable value = true ->
  is_str value = false ->
  (ast_from_value value (GraphQLList item_type) = Ok r <->
   exists results,
     r = Some (ListValueNode results) /\
     Forall2 (fun item result => ast_from_value item item_type = Ok result)
       (iter value) results).
Proof.
  intros Hit Hstr.
  rewrite ast_from_value_list by (apply iterable_dispatched; exact Hit).
  rewrite Hit, Hstr. simpl. split.
  - destruct (comprehension _ (iter value)) as [results | e] eqn:Hc;
      simpl; intros H; [ | discriminate ].
    inversion H; subst. exists results.
    split; [ reflexivity | apply comprehension_returned; exact Hc ].
  - intros (results & -> & Hall).
    rewrite (comprehension_Forall2 _ _ _ Hall). reflexivity.
Qed.

Lemma list_returns_iff_witness :
  exists results,
    Some (ListValueNode [Some (IntValueNode "1"); Some NullValueNode]) =
      Some (ListValueNode results) /\
    Forall2 (fun item result => ast_from_value item IntType = Ok result)
      (iter (PyList [PyInt 1; PyNone])) results.
Proof.
  apply (proj1 (list_returns_iff (PyList [PyInt 1; PyNone]) IntType _
                  eq_refl eq_refl)).
  reflexivity.
Defined.

Lemma comprehension_first_raise {E A B : Type} (f : A -> result E B)
  (before after : list A) (a : A) (e : E) :
  Forall (fun x => exists b, f x = Ok b) before ->
  f a = Raise e ->
  comprehension f (before ++ a :: after)%list = Raise e.
Proof.
  induction 1 as [ | x before [b Hx] _ IH]; intros Ha; simpl.
  - rewrite Ha. reflexivity.
  - rewrite Hx. simpl. rewrite (IH Ha). reflexivity.
Qed.

(** X4. The items of a list are converted from left to right and the call
    ends with the exception of the first item whose conversion raises; what
    the items after it would give or raise plays no role. *)
Theorem list_first_exception (value : pyvalue) (item_type : gtype)
  (before after : list pyvalue) (item : pyvalue) (e : type_error) :
  is_iterable value = true ->
  is_str value = false ->
  iter value = (before ++ item :: after)%list ->
  Forall (fun x => exists r, ast_from_value x item_type = Ok r) before ->
  ast_from_value item item_type = Raise e ->
  ast_from_value value (GraphQLList item_type) = Raise e.
Proof.
  intros Hit Hstr Hitems Hbefore Hitem.
  rewrite ast_from_value_list by (apply iterable_dispatched; exact Hit).
  rewrite Hit, Hstr, Hitems. simpl.
  rewrite (comprehension_first_raise
             (fun x => ast_from_value x item_type) before after item e
             Hbefore Hitem).
  reflexivity.
Qed.

Lemma list_first_exception_witness :
  ast_from_value
    (PyList [PyInt 1; PyList [PyObject 7]; PyObject 8])
    (GraphQLList (GraphQLList IntType)) =
  Raise (CannotConvert (PyObject 7)).
Proof.
  apply (list_first_exception
           (PyList [PyInt 1; PyList [PyObject 7]; PyObject 8])
           (GraphQLList IntType) [PyInt 1] [PyObject 8]
           (PyList [PyObject 7]) (CannotConvert (PyObject 7)));
    try reflexivity.
  constructor; [ eexists; reflexivity | constructor ].
Defined.

(** X5. A mapping is an iterable: under a list type it is converted as the
    list of its keys, in their order, and its values are not looked at; it
    never gives an object node there. *)
Theorem mapping_under_list (entries : list (string * pyvalue))
  (item_type : gtype) :
  ast_from_value (PyDict entries) (GraphQLList item_type) =
    ast_from_value (PyList (map (fun kv => PyStr (fst kv)) entries))
      (GraphQLList item_type) /\
  (forall entries',
      map fst entries' = map fst entries ->
      ast_from_value (PyDict entries') (GraphQLList item_type) =
      ast_from_value (PyDict entries) (GraphQLList item_type)) /\
  (forall fields,
      ast_from_value (PyDict entries) (GraphQLList item_type) <>
      Ok (Some (ObjectValueNode fields))).
Proof.
  assert (Hkeys : forall es : list (string * pyvalue),
             map (fun kv => PyStr (fst kv)) es = map PyStr (map fst es)).
  { intros es. rewrite map_map. reflexivity. }
  split; [ reflexivity | split ].
  - intros entries' Hsame.
    rewrite !ast_from_value_list by reflexivity. simpl.
    rewrite !Hkeys, Hsame. reflexivity.
  - intros fields.
    rewrite ast_from_value_list by reflexivity. simpl.
    destruct (comprehension _ _); discriminate.
Qed.

Lemma mapping_under_list_witness :
  ast_from_value (PyDict [("a", PyInt 1); ("b", PyNone)])
    (GraphQLList StringType) =
  ast_from_value (PyDict [("a", PyObject 3); ("b", PyInt 2)])
    (GraphQLList StringType).
Proof.
  apply (proj1 (proj2 (mapping_under_list
                         [("a", PyObject 3); ("b", PyInt 2)] StringType))).
  reflexivity.
Defined.

(** ** Input objects: what is read and what is written *)

Lemma object_fields_same_items {E : Type}
  (convert : pyvalue -> gtype -> result E (option node))
  (value value' : pyvalue) (fields : list (string * gtype)) :
  (forall field, In field fields ->
     getitem value' (fst field) = getitem value (fst field)) ->
  object_fields convert value' fields = object_fields convert value fields.
Proof.
  induction fields as [ | [name t] rest IH]; intros Hsame; simpl.
  - reflexivity.
  - pose proof (Hsame (name, t) (or_introl eq_refl)) as Hname.
    simpl in Hname. rewrite Hname.
    rewrite IH by (intros f Hf; apply Hsame; right; exact Hf).
    reflexivity.
Qed.

(** X6. Under an input object type only the declared keys of a mapping are
    read: two mappings with the same items at the declared field names give
    the same result, whatever other keys they have and in whatever order
    their keys come. *)
Theorem undeclared_keys_ignored (entries entries' : list (string * pyvalue))
  (fields : list (string * gtype)) :
  (forall field, In field fields ->
     lookup (fst field) entries' = lookup (fst field) entries) ->
  ast_from_value (PyDict entries') (GraphQLInputObjectType fields) =
  ast_from_value (PyDict entries) (GraphQLInputObjectType fields).
Proof.
  intros Hsame.
  rewrite !ast_from_value_input_object by reflexivity. simpl.
  rewrite (object_fields_same_items ast_from_value
             (PyDict entries) (PyDict entries') fields Hsame).
  reflexivity.
Qed.

Lemma undeclared_keys_ignored_witness :
  ast_from_value (PyDict [("x", PyObject 1); ("b", PyInt 2); ("a", PyInt 1)])
    (GraphQLInputObjectType [("a", IntType); ("b", IntType)]) =
  ast_from_value (PyDict [("a", PyInt 1); ("b", PyInt 2)])
    (GraphQLInputObjectType [("a", IntType); ("b", IntType)]).
Proof.
  apply undeclared_keys_ignored.
  intros field [H | [H | []]]; subst; reflexivity.
Defined.

(** X7. When a mapping under an input object type gives an object node, the
    names of its fields are declared names in the order of the declaration,
    each at most as often as it is declared; every field is a key of the
    mapping and holds the node that the item at that key gives under the
    declared type. *)
Theorem object_node_fields (value : pyvalue) (fields : list (string * gtype))
  (nodes : list (string * node)) :
  ast_from_value value (GraphQLInputObjectType fields) =
    Ok (Some (ObjectValueNode nodes)) ->
  subsequence (map fst nodes) (map fst fields) /\
  (List.length nodes <= List.length fields)%nat /\
  forall field_name n,
    In (field_name, n) nodes ->
    exists field_type item,
      In (field_name, field_type) fields /\
      getitem value field_name = Some item /\
      ast_from_value item field_type = Ok (Some n).
Proof.
  intros H.
  assert (Hobj : object_fields ast_from_value value fields = Ok nodes).
  { destruct (dispatched value) eqn:Hd.
    - rewrite ast_from_value_input_object in H by exact Hd.
      destruct (is_mapping value); [ | discriminate ].
      destruct (object_fields ast_from_value value fields); simpl in H;
        inversion H; reflexivity.
    - exfalso. unfold dispatched in Hd. simpl in H.
      destruct (is_None value); [ discriminate | ].
      destruct (is_invalid value); discriminate. }
  destruct (object_fields_returned _ _ _ _ Hobj) as (Hsub & Hfrom & _).
  split; [ exact Hsub | split; [ | exact Hfrom ] ].
  clear - Hsub.
  assert (Hlen : forall (l1 l2 : list string),
             subsequence l1 l2 -> (List.length l1 <= List.length l2)%nat).
  { induction 1; simpl; lia. }
  apply Hlen in Hsub. rewrite !length_map in Hsub. exact Hsub.
Qed.

Lemma object_node_fields_witness :
  subsequence (map fst [("b", IntValueNode "2")])
    (map fst [("a", IntType); ("b", IntType)]) /\
  (List.length [("b", IntValueNode "2")] <=
   List.length [("a", IntType); ("b", IntType)])%nat /\
  forall field_name n,
    In (field_name, n) [("b", IntValueNode "2")] ->
    exists field_type item,
      In (field_name, field_type) [("a", IntType); ("b", IntType)] /\
      getitem (PyDict [("b", PyInt 2); ("c", PyInt 3)]) field_name =
        Some item /\
      ast_from_value item field_type = Ok (Some n).
Proof.
  apply (object_node_fields (PyDict [("b", PyInt 2); ("c", PyInt 3)])
           [("a", IntType); ("b", IntType)] [("b", IntValueNode "2")]).
  reflexivity.
Defined.

Lemma object_fields_first_raise {E : Type}
  (convert : pyvalue -> gtype -> result E (option node)) (value : pyvalue)
  (before after : list (string * gtype)) (field_name : string)
  (field_type : gtype) (item : pyvalue) (e : E) :
  (forall name t it,
      In (name, t) before -> getitem value name = Some it ->
      exists r, convert it t = Ok r) ->
  getitem value field_name = Some item ->
  convert item field_type = Raise e ->
  object_fields convert value (before ++ (field_name, field_type) :: after)%list
  = Raise e.
Proof.
  induction before as [ | [name t] before IH]; intros Hbefore Hget Hitem;
    simpl.
  - rewrite Hget, Hitem. reflexivity.
  - assert (Hrest : object_fields convert value
                      (before ++ (field_name, field_type) :: after)%list
                    = Raise e).
    { apply IH; [ | exact Hget | exact Hitem ].
      intros n' t' it Hin. apply Hbefore. right. exact Hin. }
    rewrite Hrest.
    destruct (getitem value name) as [it | ] eqn:Hname; [ | reflexivity ].
    destruct (Hbefore name t it (or_introl eq_refl) Hname) as [r Hr].
    rewrite Hr. reflexivity.
Qed.

(** X8. The fields of an input object type are converted in the order of
    their declaration and the call ends with the exception of the first
    declared field that is a key of the mapping and whose conversion
    raises. *)
Theorem input_object_first_exception (entries : list (string * pyvalue))
  (before after : list (string * gtype)) (field_name : string)
  (field_type : gtype) (item : pyvalue) (e : type_error) :
  (forall name t it,
      In (name, t) before -> lookup name entries = Some it ->
      exists r, ast_from_value it t = Ok r) ->
  lookup field_name entries = Some item ->
  ast_from_value item field_type = Raise e ->
  ast_from_value (PyDict entries)
    (GraphQLInputObjectType
       (before ++ (field_name, field_type) :: after)%list) = Raise e.
Proof.
  intros Hbefore Hget Hitem.
  rewrite ast_from_value_input_object by reflexivity. simpl is_mapping.
  cbv iota.
  rewrite (object_fields_first_raise ast_from_value (PyDict entries)
             before after field_name field_type item e Hbefore Hget Hitem).
  reflexivity.
Qed.

Lemma input_object_first_exception_witness :
  ast_from_value (PyDict [("c", PyObject 1); ("b", PyInt 2); ("a", PyInt 1)])
    (GraphQLInputObjectType
       [("a", IntType); ("b", GraphQLOther "Query"); ("c", IntType)]) =
  Raise (UnknownType (GraphQLOther "Query")).
Proof.
  apply (input_object_first_exception
           [("c", PyObject 1); ("b", PyInt 2); ("a", PyInt 1)]
           [("a", IntType)] [("c", IntType)] "b" (GraphQLOther "Query")
           (PyInt 2) (UnknownType (GraphQLOther "Query"))).
  - intros name t it [H | []] Hget. inversion H; subst.
    simpl in Hget. inversion Hget; subst. eexists. reflexivity.
  - reflexivity.
  - reflexivity.
Defined.

Lemma ast_from_value_of_None (type_ : gtype) :
  ast_from_value PyNone type_ =
  if is_non_null_type type_ then Ok None else Ok (Some NullValueNode).
Proof.
  induction type_ as [t IH | | | | | ]; try reflexivity.
  rewrite ast_from_value_non_null, IH.
  destruct (is_non_null_type t); reflexivity.
Qed.

Lemma object_fields_app {E : Type}
  (convert : pyvalue -> gtype -> result E (option node)) (value : pyvalue)
  (before after : list (string * gtype)) :
  object_fields convert value (before ++ after)%list =
  nodes_before <- object_fields convert value before ;;
  nodes_after <- object_fields convert value after ;;
  Ok (nodes_before ++ nodes_after)%list.
Proof.
  induction before as [ | [name t] before IH]; simpl.
  - destruct (object_fields convert value after); reflexivity.
  - rewrite IH.
    destruct (getitem value name) as [item | ]; [ | reflexivity ].
    destruct (convert item t) as [r | e]; simpl; [ | reflexivity ].
    destruct (object_fields convert value before) as [nb | e]; simpl;
      [ | reflexivity ].
    destruct (object_fields convert value after) as [na | e]; simpl;
      destruct r; reflexivity.
Qed.

Lemma object_node_fields_of (value : pyvalue)
  (fields : list (string * gtype)) (nodes : list (string * node)) :
  ast_from_value value (GraphQLInputObjectType fields) =
    Ok (Some (ObjectValueNode nodes)) ->
  dispatched value = true /\ is_mapping value = true /\
  object_fields ast_from_value value fields = Ok nodes.
Proof.
  intros H. destruct (dispatched value) eqn:Hd.
  - rewrite ast_from_value_input_object in H by exact Hd.
    destruct (is_mapping value); [ | discriminate ].
    destruct (object_fields ast_from_value value fields); simpl in H;
      inversion H. repeat split.
  - exfalso. unfold dispatched in Hd. simpl in H.
    destruct (is_None value); [ discriminate | ].
    destruct (is_invalid value); discriminate.
Qed.

(** X9. In any input object type, a declared field whose key holds the
    explicit [None] is written as a field with the null node when its type
    is not a non-null type, and is left out when it is: the object node has
    the fields of the declarations before it, then that field or nothing,
    then the fields of the declarations after it. *)
Theorem field_of_None (value : pyvalue)
  (before after : list (string * gtype)) (field_name : string)
  (field_type : gtype) (nodes_before nodes_after : list (string * node)) :
  getitem value field_name = Some PyNone ->
  ast_from_value value (GraphQLInputObjectType before) =
    Ok (Some (ObjectValueNode nodes_before)) ->
  ast_from_value value (GraphQLInputObjectType after) =
    Ok (Some (ObjectValueNode nodes_after)) ->
  ast_from_value value
    (GraphQLInputObjectType
       (before ++ (field_name, field_type) :: after)%list) =
  Ok (Some (ObjectValueNode
              (nodes_before ++
               (if is_non_null_type field_type then []
                else [(field_name, NullValueNode)]) ++
               nodes_after)%list)).
Proof.
  intros Hget Hbefore Hafter.
  apply object_node_fields_of in Hbefore as (Hd & Hmap & Hbefore).
  apply object_node_fields_of in Hafter as (_ & _ & Hafter).
  rewrite ast_from_value_input_object by exact Hd.
  rewrite Hmap, object_fields_app, Hbefore. simpl.
  rewrite Hget, ast_from_value_of_None, Hafter.
  destruct (is_non_null_type field_type); reflexivity.
Qed.

Lemma field_of_None_witness :
  ast_from_value (PyDict [("c", PyInt 3); ("b", PyNone); ("a", PyInt 1)])
    (GraphQLInputObjectType
       [("a", IntType); ("b", GraphQLNonNull IntType); ("c", IntType)]) =
    Ok (Some (ObjectValueNode
                [("a", IntValueNode "1"); ("c", IntValueNode "3")])) /\
  ast_from_value (PyDict [("c", PyInt 3); ("b", PyNone); ("a", PyInt 1)])
    (GraphQLInputObjectType
       [("a", IntType); ("b", IntType); ("c", IntType)]) =
    Ok (Some (ObjectValueNode
                [("a", IntValueNode "1"); ("b", NullValueNode);
                 ("c", IntValueNode "3")])).
Proof.
  split.
  - exact (field_of_None
             (PyDict [("c", PyInt 3); ("b", PyNone); ("a", PyInt 1)])
             [("a", IntType)] [("c", IntType)] "b" (GraphQLNonNull IntType)
             [("a", IntValueNode "1")] [("c", IntValueNode "3")]
             eq_refl eq_refl eq_refl).
  - exact (field_of_None
             (PyDict [("c", PyInt 3); ("b", PyNone); ("a", PyInt 1)])
             [("a", IntType)] [("c", IntType)] "b" IntType
             [("a", IntValueNode "1")] [("c", IntValueNode "3")]
             eq_refl eq_refl eq_refl).
Defined.

(** ** Leaf types: integers, booleans and identifiers *)

Lemma all_digits_then_end (s : string) :
  all_digits s = true -> digits_then_end s = true.
Proof.
  induction s as [ | c s IH]; simpl; intros H.
  - reflexivity.
  - apply andb_true_iff in H as [Hc Hs].
    rewrite Hc, (IH Hs). apply orb_true_r.
Qed.

Lemma string_of_uint_all_digits (d : Decimal.uint) :
  all_digits (NilEmpty.string_of_uint d) = true.
Proof. induction d; simpl; auto. Qed.

Lemma unorm_zero_head (d d' : Decimal.uint) :
  Decimal.unorm d = Decimal.D0 d' -> d' = Decimal.Nil.
Proof.
  induction d; simpl; intros H; try discriminate.
  - inversion H. reflexivity.
  - apply IHd. exact H.
Qed.

Lemma to_uint_normal (p : positive) :
  Decimal.unorm (Pos.to_uint p) = Pos.to_uint p.
Proof.
  rewrite <- (DecimalPos.Unsigned.to_of (Pos.to_uint p)).
  rewrite DecimalPos.Unsigned.of_to. reflexivity.
Qed.

Lemma positive_text_matches (p : positive) :
  exists c s,
    NilZero.string_of_uint (Pos.to_uint p) = String c s /\
    is_nonzero_digit c = true /\
    all_digits s = true.
Proof.
  pose proof (to_uint_normal p) as Hnorm.
  pose proof (DecimalPos.Unsigned.to_uint_nonzero p) as Hnz.
  pose proof (DecimalPos.Unsigned.to_uint_nonnil p) as Hnn.
  destruct (Pos.to_uint p) as [ | d | d | d | d | d | d | d | d | d | d ]
    eqn:Hp.
  - contradiction.
  - exfalso. apply Hnz. simpl in Hnorm.
    apply unorm_zero_head in Hnorm as ->. reflexivity.
  - eexists _, _. split; [ reflexivity | ].
    split; [ reflexivity | apply string_of_uint_all_digits ].
  - eexists _, _. split; [ reflexivity | ].
    split; [ reflexivity | apply string_of_uint_all_digits ].
  - eexists _, _. split; [ reflexivity | ].
    split; [ reflexivity | apply string_of_uint_all_digits ].
  - eexists _, _. split; [ reflexivity | ].
    split; [ reflexivity | apply string_of_uint_all_digits ].
  - eexists _, _. split; [ reflexivity | ].
    split; [ reflexivity | apply string_of_uint_all_digits ].
  - eexists _, _. split; [ reflexivity | ].
    split; [ reflexivity | apply string_of_uint_all_digits ].
  - eexists _, _. split; [ reflexivity | ].
    split; [ reflexivity | apply string_of_uint_all_digits ].
  - eexists _, _. split; [ reflexivity | ].
    split; [ reflexivity | apply string_of_uint_all_digits ].
  - eexists _, _. split; [ reflexivity | ].
    split; [ reflexivity | apply string_of_uint_all_digits ].
Qed.

Lemma nonzero_digit_natural (c : ascii) (s : string) :
  is_nonzero_digit c = true -> all_digits s = true ->
  natural_then_end (String c s) = true /\ Ascii.eqb c "-" = false.
Proof.
  intros Hc Hs.
  assert (Hn : natural_then_end (String c s) = true).
  { simpl. destruct (Ascii.eqb c "0") eqn:H0.
    - apply Ascii.eqb_eq in H0. subst. discriminate.
    - rewrite Hc, (all_digits_then_end s Hs). reflexivity. }
  split; [ exact Hn | apply (natural_not_signed c s Hn) ].
Qed.

Lemma format_d_matches (n : Z) :
  re_integer_string_match (format_d n) = true.
Proof.
  unfold format_d. destruct n as [ | p | p ]; [ reflexivity | | ].
  - simpl Z.to_int. unfold NilZero.string_of_int.
    destruct (positive_text_matches p) as (c & s & -> & Hc & Hs).
    destruct (nonzero_digit_natural c s Hc Hs) as [Hn Hsign].
    unfold re_integer_string_match. rewrite Hsign. exact Hn.
  - simpl Z.to_int. unfold NilZero.string_of_int.
    destruct (positive_text_matches p) as (c & s & -> & Hc & Hs).
    destruct (nonzero_digit_natural c s Hc Hs) as [Hn _].
    exact Hn.
Qed.

Lemma read_int_format_d (n : Z) : read_int (format_d n) = Some n.
Proof.
  unfold read_int, format_d.
  rewrite NilZero.isi.
  - simpl. rewrite DecimalZ.of_to. reflexivity.
  - destruct n; simpl; try discriminate.
    intros H. inversion H.
    apply (DecimalPos.Unsigned.to_uint_nonnil p). assumption.
  - destruct n; simpl; try discriminate.
    intros H. inversion H.
    apply (DecimalPos.Unsigned.to_uint_nonnil p). assumption.
Qed.

(** X10. When [serialize] returns an integer, of any size, the result is an
    int node whose text the integer pattern matches and which reads back as
    that integer; so different integers give different nodes. *)
Theorem leaf_int_node (value : pyvalue) (leaf : gtype)
  (serialize : pyvalue -> pyvalue) (n : Z) :
  serializer leaf = Some serialize ->
  is_None value = false ->
  is_invalid value = false ->
  serialize value = PyInt n ->
  ast_from_value value leaf = Ok (Some (IntValueNode (format_d n))) /\
  re_integer_string_match (format_d n) = true /\
  read_int (format_d n) = Some n /\
  (forall n', format_d n' = format_d n -> n' = n).
Proof.
  intros Hser HN HI Hint.
  rewrite (ast_from_value_leaf value leaf serialize Hser)
    by (apply dispatched_true; auto).
  rewrite Hint.
  split; [ reflexivity | ].
  split; [ apply format_d_matches | ].
  split; [ apply read_int_format_d | ].
  intros n' Hsame.
  pose proof (read_int_format_d n') as Hn'.
  rewrite Hsame, read_int_format_d in Hn'. inversion Hn'. reflexivity.
Qed.

Lemma leaf_int_node_witness :
  ast_from_value (PyInt (-12345678901234567890)) IntType =
    Ok (Some (IntValueNode "-12345678901234567890")) /\
  re_integer_string_match (format_d (-12345678901234567890)) = true /\
  read_int (format_d (-12345678901234567890)) =
    Some (-12345678901234567890) /\
  (forall n',
      format_d n' = format_d (-12345678901234567890) ->
      n' = -12345678901234567890).
Proof.
  exact (leaf_int_node (PyInt (-12345678901234567890)) IntType
           (fun value => value) (-12345678901234567890)
           eq_refl eq_refl eq_refl eq_refl).
Defined.

(** X11. Under a leaf type a boolean node is given exactly when [serialize]
    returns a boolean, which is tested before the integers: [True] never
    becomes the int node of 1, and no integer, float or string becomes a
    boolean node. *)
Theorem leaf_boolean_node_iff (value : pyvalue) (leaf : gtype)
  (serialize : pyvalue -> pyvalue) (b : bool) :
  serializer leaf = Some serialize ->
  is_None value = false ->
  is_invalid value = false ->
  (ast_from_value value leaf = Ok (Some (BooleanValueNode b)) <->
   serialize value = PyBool b).
Proof.
  intros Hser HN HI.
  rewrite (ast_from_value_leaf value leaf serialize Hser)
    by (apply dispatched_true; auto).
  unfold ast_from_serialized. split.
  - destruct (is_nullish (serialize value)); [ discriminate | ].
    destruct (serialize value); try discriminate.
    + intros H. inversion H. reflexivity.
    + destruct (is_enum_type leaf); [ discriminate | ].
      destruct (is_GraphQLID leaf && re_integer_string_match s);
        discriminate.
  - intros ->. reflexivity.
Qed.

Lemma leaf_boolean_node_iff_witness :
  ast_from_value (PyBool true) IntType = Ok (Some (BooleanValueNode true)).
Proof.
  apply (proj2 (leaf_boolean_node_iff (PyBool true) IntType
                  (fun value => value) true eq_refl eq_refl eq_refl)).
  reflexivity.
Defined.

(** X12. Under the built-in [GraphQLID] a string is given as an int node
    exactly when it is an optional minus sign, then [0] or a number without
    leading zero, then nothing or one newline, and as a string node
    otherwise; a scalar type that is another object always gives the string
    node, whatever its name is, the name ["ID"] included. *)
Theorem id_string_node (value : pyvalue) (serialize : pyvalue -> pyvalue)
  (text : string) :
  is_None value = false ->
  is_invalid value = false ->
  serialize value = PyStr text ->
  (ast_from_value value (GraphQLID serialize) =
     Ok (Some (IntValueNode text)) <-> integer_text text) /\
  (ast_from_value value (GraphQLID serialize) =
     Ok (Some (StringValueNode text)) <-> ~ integer_text text) /\
  (forall name,
      ast_from_value value (GraphQLScalarType (NamedScalar name) serialize) =
      Ok (Some (StringValueNode text))).
Proof.
  intros HN HI Hstr.
  assert (Hd : dispatched value = true) by (apply dispatched_true; auto).
  split; [ | split ].
  - rewrite (ast_from_value_leaf value (GraphQLID serialize) serialize
               eq_refl Hd).
    rewrite Hstr. unfold ast_from_serialized. simpl.
    rewrite <- re_integer_string_match_iff.
    destruct (re_integer_string_match text); split;
      (reflexivity || discriminate).
  - rewrite (ast_from_value_leaf value (GraphQLID serialize) serialize
               eq_refl Hd).
    rewrite Hstr. unfold ast_from_serialized. simpl.
    rewrite <- re_integer_string_match_iff.
    destruct (re_integer_string_match text); split;
      try discriminate; try reflexivity.
    intros H. exfalso. apply H. reflexivity.
  - intros name.
    rewrite (ast_from_value_leaf value
               (GraphQLScalarType (NamedScalar name) serialize) serialize
               eq_refl Hd).
    rewrite Hstr. reflexivity.
Qed.

Lemma id_string_node_witness :
  (ast_from_value (PyStr ("42" ++ newline)) IDType =
     Ok (Some (IntValueNode ("42" ++ newline))) <->
   integer_text ("42" ++ newline)) /\
  (ast_from_value (PyStr ("42" ++ newline)) IDType =
     Ok (Some (StringValueNode ("42" ++ newline))) <->
   ~ integer_text ("42" ++ newline)) /\
  (forall name,
      ast_from_value (PyStr ("42" ++ newline)) (plain_scalar name) =
      Ok (Some (StringValueNode ("42" ++ newline)))).
Proof.
  exact (id_string_node (PyStr ("42" ++ newline)) (fun value => value)
           ("42" ++ newline) eq_refl eq_refl eq_refl).
Defined.

(** ** Invariants of the result *)

Lemma comprehension_total {E A B : Type} (f : A -> result E B) (l : list A) :
  (forall a, In a l -> exists b, f a = Ok b) ->
  exists bs, comprehension f l = Ok bs.
Proof.
  induction l as [ | a l IH]; intros Hall; simpl.
  - exists []. reflexivity.
  - destruct (Hall a (or_introl eq_refl)) as [b Hb].
    destruct IH as [bs Hbs]; [ intros x Hx; apply Hall; right; exact Hx | ].
    rewrite Hb, Hbs. exists (b :: bs). reflexivity.
Qed.

Lemma never_fails_field (fields : list (string * gtype))
  (field : string * gtype) :
  never_fails (GraphQLInputObjectType fields) ->
  In field fields -> never_fails (snd field).
Proof.
  induction fields as [ | f rest IH]; simpl; intros Hall Hin.
  - destruct Hin.
  - destruct Hall as [Hf Hrest]. destruct Hin as [-> | Hin].
    + exact Hf.
    + apply IH; assumption.
Qed.

Lemma ast_from_serialized_returns (type_ : gtype) (serialized : pyvalue) :
  unrepresentable serialized = false ->
  exists r, ast_from_serialized type_ serialized = Ok r.
Proof.
  unfold unrepresentable, ast_from_serialized.
  destruct (is_nullish serialized); [ eexists; reflexivity | ].
  destruct serialized; simpl; try discriminate; intros _;
    try (eexists; reflexivity).
  destruct (is_enum_type type_); [ eexists; reflexivity | ].
  destruct (is_GraphQLID type_ && re_integer_string_match s);
    eexists; reflexivity.
Qed.

(** X13. Under a type that has no type of unknown shape in it and whose leaf
    types serialize every value to a nullish value, a boolean, an integer, a
    float or a string, no value makes the conversion raise. *)
Theorem never_fails_returns (type_ : gtype) :
  never_fails type_ ->
  forall value, exists r, ast_from_value value type_ = Ok r.
Proof.
  induction type_ as [t IH | t IH | fields IH | name ser | name ser | name]
    using gtype_induction; intros Hnf value.
  - destruct (IH Hnf value) as [r Hr].
    rewrite ast_from_value_non_null, Hr. simpl.
    destruct r as [[ | | | | | | | ] | ]; eexists; reflexivity.
  - destruct (dispatched value) eqn:Hd.
    + rewrite ast_from_value_list by exact Hd.
      destruct (is_iterable value && negb (is_str value)).
      * destruct (comprehension_total
                    (fun item => ast_from_value item t) (iter value))
          as [rs Hrs]; [ intros item _; apply (IH Hnf) | ].
        rewrite Hrs. eexists. reflexivity.
      * apply (IH Hnf).
    + unfold dispatched in Hd. simpl.
      destruct (is_None value); [ eexists; reflexivity | ].
      destruct (is_invalid value); [ eexists; reflexivity | discriminate ].
  - destruct (dispatched value) eqn:Hd.
    + rewrite ast_from_value_input_object by exact Hd.
      destruct (is_mapping value); [ | eexists; reflexivity ].
      rewrite object_fields_declared; [ eexists; reflexivity | ].
      intros fname ftype item Hin _.
      rewrite Forall_forall in IH.
      apply (IH (fname, ftype) Hin).
      apply (never_fails_field fields (fname, ftype) Hnf Hin).
    + unfold dispatched in Hd. simpl.
      destruct (is_None value); [ eexists; reflexivity | ].
      destruct (is_invalid value); [ eexists; reflexivity | discriminate ].
  - simpl in Hnf. simpl.
    destruct (is_None value); [ eexists; reflexivity | ].
    destruct (is_invalid value); [ eexists; reflexivity | ].
    apply ast_from_serialized_returns. apply Hnf.
  - simpl in Hnf. simpl.
    destruct (is_None value); [ eexists; reflexivity | ].
    destruct (is_invalid value); [ eexists; reflexivity | ].
    apply ast_from_serialized_returns. apply Hnf.
  - destruct Hnf.
Qed.

Lemma never_fails_returns_witness :
  exists r,
    ast_from_value (PyList [PyObject 1; PyDict [("a", PyStr "x")]])
      (GraphQLList
         (GraphQLInputObjectType
            [("a", GraphQLNonNull
                     (GraphQLEnumType "Color" (fun _ => PyStr "RED")))])) =
    Ok r.
Proof.
  apply never_fails_returns.
  simpl. split; [ intros value; reflexivity | exact I ].
Defined.

Lemma int_texts_match_list (values : list (option node)) :
  Forall (fun r => match r with
                   | Some n => int_texts_match n
                   | None => True
                   end) values ->
  int_texts_match (ListValueNode values).
Proof.
  induction 1 as [ | r values Hr _ IH]; simpl.
  - exact I.
  - destruct r as [n | ]; [ split; [ exact Hr | exact IH ] | exact IH ].
Qed.

Lemma int_texts_match_object (fields : list (string * node)) :
  Forall (fun field => int_texts_match (snd field)) fields ->
  int_texts_match (ObjectValueNode fields).
Proof.
  induction 1 as [ | field fields Hf _ IH]; simpl.
  - exact I.
  - split; [ exact Hf | exact IH ].
Qed.

Lemma ast_from_serialized_int_texts (type_ : gtype) (serialized : pyvalue)
  (n : node) :
  ast_from_serialized type_ serialized = Ok (Some n) -> int_texts_match n.
Proof.
  unfold ast_from_serialized.
  destruct (is_nullish serialized); [ discriminate | ].
  destruct serialized; try discriminate; intros H.
  - inversion H. exact I.
  - inversion H. simpl. apply format_d_matches.
  - inversion H. exact I.
  - destruct (is_enum_type type_); [ inversion H; exact I | ].
    destruct (is_GraphQLID type_ && re_integer_string_match s) eqn:Hid;
      inversion H; [ | exact I ].
    simpl. apply andb_true_iff in Hid as [_ Hmatch]. exact Hmatch.
Qed.

Lemma undispatched_result (value : pyvalue) (type_ : gtype) (n : node) :
  dispatched value = false ->
  is_non_null_type type_ = false ->
  ast_from_value value type_ = Ok (Some n) -> n = NullValueNode.
Proof.
  unfold dispatched. intros Hd Hnn H.
  destruct type_; try discriminate; simpl in H;
    (destruct (is_None value); [ inversion H; reflexivity | ]);
    (destruct (is_invalid value); [ discriminate H | discriminate Hd ]).
Qed.

Ltac undispatched H Hd :=
  apply undispatched_result in H; [ subst | exact Hd | reflexivity ].

(** X14. Every int node of a result, at any depth of its lists and objects,
    has a text that the integer pattern matches, whether it was made from an
    integer or from a string under the [ID] type. *)
Theorem int_nodes_match_pattern (type_ : gtype) :
  forall (value : pyvalue) (n : node),
    ast_from_value value type_ = Ok (Some n) -> int_texts_match n.
Proof.
  induction type_ as [t IH | t IH | fields IH | name ser | name ser | name]
    using gtype_induction; intros value n H.
  - rewrite ast_from_value_non_null in H.
    destruct (ast_from_value value t) as [[n' | ] | e] eqn:Ht; simpl in H;
      try discriminate.
    assert (Hn : n' = n) by (destruct n'; inversion H; reflexivity).
    subst. apply (IH value n Ht).
  - destruct (dispatched value) eqn:Hd.
    + rewrite ast_from_value_list in H by exact Hd.
      destruct (is_iterable value && negb (is_str value)).
      * destruct (comprehension _ (iter value)) as [rs | e] eqn:Hc;
          simpl in H; [ | discriminate ].
        inversion H; subst. apply int_texts_match_list.
        apply comprehension_returned in Hc. clear H.
        induction Hc as [ | item r items rs Hr _ IHc]; constructor.
        -- destruct r as [n' | ]; [ apply (IH item n' Hr) | exact I ].
        -- exact IHc.
      * apply (IH value n H).
    + undispatched H Hd. exact I.
  - destruct (dispatched value) eqn:Hd.
    + rewrite ast_from_value_input_object in H by exact Hd.
      destruct (is_mapping value); [ | discriminate ].
      destruct (object_fields ast_from_value value fields) as [ns | e] eqn:Ho;
        simpl in H; [ | discriminate ].
      inversion H; subst. apply int_texts_match_object.
      destruct (object_fields_returned _ _ _ _ Ho) as (_ & Hfrom & _).
      rewrite Forall_forall in *. intros [fname n'] Hin.
      destruct (Hfrom fname n' Hin) as (ftype & item & Hdecl & _ & Hitem).
      apply (IH (fname, ftype) Hdecl item n' Hitem).
    + undispatched H Hd. exact I.
  - destruct (dispatched value) eqn:Hd.
    + rewrite (ast_from_value_leaf value (GraphQLScalarType name ser) ser
                 eq_refl Hd) in H.
      apply (ast_from_serialized_int_texts _ _ _ H).
    + undispatched H Hd. exact I.
  - destruct (dispatched value) eqn:Hd.
    + rewrite (ast_from_value_leaf value (GraphQLEnumType name ser) ser
                 eq_refl Hd) in H.
      apply (ast_from_serialized_int_texts _ _ _ H).
    + undispatched H Hd. exact I.
  - destruct (dispatched value) eqn:Hd.
    + apply dispatched_true in Hd as [HN HI]. simpl in H.
      rewrite HN, HI in H. discriminate.
    + undispatched H Hd. exact I.
Qed.

Lemma int_nodes_match_pattern_witness :
  int_texts_match
    (ObjectValueNode
       [("ids", ListValueNode [Some (IntValueNode "7");
                               Some (StringValueNode "07")]);
        ("n", IntValueNode "-3")]).
Proof.
  apply (int_nodes_match_pattern
           (GraphQLInputObjectType
              [("ids", GraphQLList IDType); ("n", IntType)])
           (PyDict [("n", PyInt (-3));
                    ("ids", PyList [PyStr "7"; PyStr "07"])])).
  reflexivity.
Defined.

Lemma node_depth_list (values : list (option node)) (d : nat) :
  Forall (fun r => match r with
                   | Some n => (node_depth n <= d)%nat
                   | None => True
                   end) values ->
  (node_depth (ListValueNode values) <= S d)%nat.
Proof.
  intros Hall. simpl. apply le_n_S.
  induction Hall as [ | r values Hr _ IH].
  - lia.
  - destruct r as [n | ]; [ | exact IH ].
    apply Nat.max_lub; assumption.
Qed.

Lemma node_depth_object (fields : list (string * node)) (d : nat) :
  Forall (fun field => (node_depth (snd field) <= d)%nat) fields ->
  (node_depth (ObjectValueNode fields) <= S d)%nat.
Proof.
  intros Hall. simpl. apply le_n_S.
  induction Hall as [ | field fields Hf _ IH].
  - lia.
  - apply Nat.max_lub; assumption.
Qed.

Lemma ast_from_serialized_depth (type_ : gtype) (serialized : pyvalue)
  (n : node) :
  ast_from_serialized type_ serialized = Ok (Some n) -> node_depth n = O.
Proof.
  unfold ast_from_serialized.
  destruct (is_nullish serialized); [ discriminate | ].
  destruct serialized; try discriminate; intros H;
    try (inversion H; reflexivity).
  destruct (is_enum_type type_); [ inversion H; reflexivity | ].
  destruct (is_GraphQLID type_ && re_integer_string_match s);
    inversion H; reflexivity.
Qed.

(** X15. A result never nests deeper than its type: the lists and objects
    above the deepest leaf of the node are at most as many as the list,
    input object and non-null types above the deepest leaf of the type,
    however deep the value is. *)
Theorem node_depth_bounded (type_ : gtype) :
  forall (value : pyvalue) (n : node),
    ast_from_value value type_ = Ok (Some n) ->
    (node_depth n <= type_depth type_)%nat.
Proof.
  induction type_ as [t IH | t IH | fields IH | name ser | name ser | name]
    using gtype_induction; intros value n H.
  - rewrite ast_from_value_non_null in H.
    destruct (ast_from_value value t) as [[n' | ] | e] eqn:Ht; simpl in H;
      try discriminate.
    assert (Hn : n' = n) by (destruct n'; inversion H; reflexivity).
    subst. specialize (IH value n Ht). simpl. lia.
  - destruct (dispatched value) eqn:Hd.
    + rewrite ast_from_value_list in H by exact Hd.
      destruct (is_iterable value && negb (is_str value)).
      * destruct (comprehension _ (iter value)) as [rs | e] eqn:Hc;
          simpl in H; [ | discriminate ].
        inversion H; subst.
        apply (node_depth_list rs (type_depth t)).
        apply comprehension_returned in Hc. clear H.
        induction Hc as [ | item r items rs Hr _ IHc]; constructor.
        -- destruct r as [n' | ]; [ apply (IH item n' Hr) | exact I ].
        -- exact IHc.
      * specialize (IH value n H). simpl. lia.
    + undispatched H Hd. simpl. lia.
  - destruct (dispatched value) eqn:Hd.
    + rewrite ast_from_value_input_object in H by exact Hd.
      destruct (is_mapping value); [ | discriminate ].
      destruct (object_fields ast_from_value value fields) as [ns | e] eqn:Ho;
        simpl in H; [ | discriminate ].
      inversion H; subst.
      change (type_depth (GraphQLInputObjectType fields)) with
        (S (fold_right (fun field d => Nat.max (type_depth (snd field)) d) O
              fields)).
      apply node_depth_object.
      destruct (object_fields_returned _ _ _ _ Ho) as (_ & Hfrom & _).
      rewrite Forall_forall in *. intros [fname n'] Hin.
      destruct (Hfrom fname n' Hin) as (ftype & item & Hdecl & _ & Hitem).
      pose proof (IH (fname, ftype) Hdecl item n' Hitem) as Hnode.
      pose proof (field_depth fields (fname, ftype) Hdecl) as Hfield.
      simpl in *. lia.
    + undispatched H Hd. simpl. lia.
  - destruct (dispatched value) eqn:Hd.
    + rewrite (ast_from_value_leaf value (GraphQLScalarType name ser) ser
                 eq_refl Hd) in H.
      rewrite (ast_from_serialized_depth _ _ _ H). lia.
    + undispatched H Hd. simpl. lia.
  - destruct (dispatched value) eqn:Hd.
    + rewrite (ast_from_value_leaf value (GraphQLEnumType name ser) ser
                 eq_refl Hd) in H.
      rewrite (ast_from_serialized_depth _ _ _ H). lia.
    + undispatched H Hd. simpl. lia.
  - destruct (dispatched value) eqn:Hd.
    + apply dispatched_true in Hd as [HN HI]. simpl in H.
      rewrite HN, HI in H. discriminate.
    + undispatched H Hd. simpl. lia.
Qed.

Lemma node_depth_bounded_witness :
  (node_depth (ListValueNode [Some (IntValueNode "1")]) <=
   type_depth (GraphQLNonNull (GraphQLList (GraphQLList IntType))))%nat.
Proof.
  apply (node_depth_bounded
           (GraphQLNonNull (GraphQLList (GraphQLList IntType)))
           (PyList [PyInt 1])).
  reflexivity.
Defined.

(** ** Invalid items and what an exception carries *)

(** X16. In a mapping under an input object type, a key that holds an
    invalid value ([INVALID] or NaN) counts as much as a missing key: the
    result is the one of the mapping without it. *)
Theorem invalid_item_as_missing (entries : list (string * pyvalue))
  (key : string) (item : pyvalue) (fields : list (string * gtype)) :
  is_invalid item = true ->
  lookup key entries = None ->
  ast_from_value (PyDict ((key, item) :: entries))
    (GraphQLInputObjectType fields) =
  ast_from_value (PyDict entries) (GraphQLInputObjectType fields).
Proof.
  intros Hinv Hnew.
  rewrite !ast_from_value_input_object by reflexivity. simpl is_mapping.
  cbv iota. f_equal.
  induction fields as [ | [name t] rest IH]; simpl.
  - reflexivity.
  - rewrite IH. destruct (String.eqb name key) eqn:Hname.
    + apply String.eqb_eq in Hname. subst.
      rewrite Hnew, (ast_from_value_invalid item t Hinv). simpl.
      destruct (object_fields ast_from_value (PyDict entries) rest);
        reflexivity.
    + reflexivity.
Qed.

Lemma invalid_item_as_missing_witness :
  ast_from_value (PyDict [("a", PyFloat S754_nan); ("b", PyInt 2)])
    (GraphQLInputObjectType
       [("a", GraphQLNonNull FloatType); ("b", IntType)]) =
  ast_from_value (PyDict [("b", PyInt 2)])
    (GraphQLInputObjectType
       [("a", GraphQLNonNull FloatType); ("b", IntType)]).
Proof.
  apply invalid_item_as_missing; reflexivity.
Defined.

(** X17. An exception tells what failed: the error of line 127 carries a
    value that some leaf type of the call serialized to and that is neither
    nullish nor a boolean, integer, float or string, and the error of line
    129 carries a type of unknown shape, the one met, not the type of the
    call around it. *)
Theorem exception_payload (value : pyvalue) (type_ : gtype) :
  (forall serialized,
      ast_from_value value type_ = Raise (CannotConvert serialized) ->
      unrepresentable serialized = true /\
      exists value' leaf serialize,
        reaches (value, type_) (value', leaf) /\
        serializer leaf = Some serialize /\
        serialize value' = serialized) /\
  (forall unknown,
      ast_from_value value type_ = Raise (UnknownType unknown) ->
      is_unknown_type unknown = true /\
      exists value', reaches (value, type_) (value', unknown)).
Proof.
  split.
  - intros serialized H.
    destruct (raise_reaches type_ value _ H) as (v' & t' & Hreach & Hhere).
    unfold raises_here in Hhere.
    destruct (dispatched v'); [ | discriminate ].
    destruct t' as [ | | | name serialize | name serialize | ];
      try discriminate.
    + destruct (unrepresentable (serialize v')) eqn:Hu; [ | discriminate ].
      inversion Hhere; subst. split; [ exact Hu | ].
      exists v', (GraphQLScalarType name serialize), serialize.
      split; [ exact Hreach | split; reflexivity ].
    + destruct (unrepresentable (serialize v')) eqn:Hu; [ | discriminate ].
      inversion Hhere; subst. split; [ exact Hu | ].
      exists v', (GraphQLEnumType name serialize), serialize.
      split; [ exact Hreach | split; reflexivity ].
  - intros unknown H.
    destruct (raise_reaches type_ value _ H) as (v' & t' & Hreach & Hhere).
    unfold raises_here in Hhere.
    destruct (dispatched v'); [ | discriminate ].
    destruct t'; try discriminate.
    + destruct (unrepresentable (serialize v')); discriminate.
    + destruct (unrepresentable (serialize v')); discriminate.
    + inversion Hhere; subst. split; [ reflexivity | ].
      exists v'. exact Hreach.
Qed.

Lemma exception_payload_witness :
  is_unknown_type (GraphQLOther "Query") = true /\
  exists value',
    reaches (PyList [PyInt 1], GraphQLNonNull (GraphQLList (GraphQLOther "Query")))
      (value', GraphQLOther "Query").
Proof.
  apply (proj2 (exception_payload (PyList [PyInt 1])
                  (GraphQLNonNull (GraphQLList (GraphQLOther "Query"))))).
  reflexivity.
Defined.
